(** * The AAA actioner of the management CLI ([CLI/actioner/sonic_cli_aaa.py])

    A shallow embedding of the actioner and the properties of its handlers.

    - Python strings are [string]: a character is a code point below 256.
    - Parsed JSON (request bodies, the content of a response) is [json].
    - A handler is a computation in [io]: it reads the answers of the REST
      transport, appends the REST calls, printed lines and rendering calls it
      makes to a trace, and returns a status or raises a Python exception. *)

From Stdlib Require Import String Ascii List ZArith Bool Lia DecimalString.
Import ListNotations.
Local Open Scope string_scope.
Local Open Scope Z_scope.

(** ** Python's runtime, as far as the actioner uses it *)

Module Py.

(** [str.isspace] on one character, for code points below 256: the ASCII
    controls TAB..CR and FS..US, the space, NEL and the no-break space. *)
Definition isspace (c : ascii) : bool :=
  let n := N_of_ascii c in
  ((9 <=? n) && (n <=? 13) || (28 <=? n) && (n <=? 31)
   || (n =? 32) || (n =? 133) || (n =? 160))%N.

Fixpoint lstrip (s : string) : string :=
  match s with
  | EmptyString => EmptyString
  | String c r => if isspace c then lstrip r else s
  end.

Fixpoint rstrip (s : string) : string :=
  match s with
  | EmptyString => EmptyString
  | String c r =>
      match rstrip r with
      | EmptyString => if isspace c then EmptyString else String c EmptyString
      | r' => String c r'
      end
  end.

(** [s.strip()] *)
Definition strip (s : string) : string := rstrip (lstrip s).

(** Truth value of a string: [bool(s)]. *)
Definition str_truthy (s : string) : bool :=
  match s with EmptyString => false | String _ _ => true end.

(** [sep.join(l)] on a list of strings. *)
Fixpoint join (sep : string) (l : list string) : string :=
  match l with
  | [] => ""
  | [x] => x
  | x :: r => x ++ sep ++ join sep r
  end.

(** [needle in haystack] on two strings. *)
Fixpoint str_contains (needle haystack : string) : bool :=
  String.prefix needle haystack
  || match haystack with
     | EmptyString => false
     | String _ r => str_contains needle r
     end.

(** The characters of a string, each one a string of length one. *)
Fixpoint chars (s : string) : list string :=
  match s with
  | EmptyString => []
  | String c r => String c EmptyString :: chars r
  end.

Inductive exn := TypeError | AttributeError | KeyError.

Inductive result (A : Type) :=
| Ok (a : A)
| Raise (e : exn).
Arguments Ok {A} a.
Arguments Raise {A} e.

End Py.
Import Py.

(** ** JSON values *)

(** What [json.loads] builds, and what a request body is made of. A number is
    an integer; a dict is the list of its items in insertion order, with
    distinct keys. *)
#[warnings="-register-all"]
Inductive json :=
| JNull
| JBool (b : bool)
| JNum (n : Z)
| JStr (s : string)
| JArr (l : list json)
| JObj (items : list (string * json)).

Fixpoint lookup (k : string) (items : list (string * json)) : option json :=
  match items with
  | [] => None
  | (k', v) :: r => if String.eqb k k' then Some v else lookup k r
  end.

Module PyJson.

(** [bool(v)] *)
Definition truthy (v : json) : bool :=
  match v with
  | JNull => false
  | JBool b => b
  | JNum n => negb (n =? 0)
  | JStr s => str_truthy s
  | JArr l => match l with [] => false | _ => true end
  | JObj o => match o with [] => false | _ => true end
  end.

(** [v.get(k, default)]: only a dict has the method. *)
Definition get (v : json) (k : string) (default : json) : result json :=
  match v with
  | JObj o => Ok (match lookup k o with Some x => x | None => default end)
  | _ => Raise AttributeError
  end.

(** [k in v] for a string [k]: key of a dict, element of a list, substring of
    a string; the other values are not iterable. *)
Definition contains (k : string) (v : json) : result bool :=
  match v with
  | JObj o => Ok (match lookup k o with Some _ => true | None => false end)
  | JArr l =>
      Ok (existsb (fun x => match x with JStr s => String.eqb s k | _ => false end) l)
  | JStr s => Ok (str_contains k s)
  | _ => Raise TypeError
  end.

(** [v[k]] for a string [k]. *)
Definition getitem (v : json) (k : string) : result json :=
  match v with
  | JObj o => match lookup k o with Some x => Ok x | None => Raise KeyError end
  | _ => Raise TypeError
  end.

(** The items of [sep.join(v)]: the elements of a list must be strings, a
    dict yields its keys, a string its characters. *)
Fixpoint strings_of (l : list json) : result (list string) :=
  match l with
  | [] => Ok []
  | JStr s :: r =>
      match strings_of r with
      | Ok ss => Ok (s :: ss)
      | Raise e => Raise e
      end
  | _ :: _ => Raise TypeError
  end.

Definition join (sep : string) (v : json) : result string :=
  match v with
  | JArr l =>
      match strings_of l with
      | Ok ss => Ok (Py.join sep ss)
      | Raise e => Raise e
      end
  | JObj o => Ok (Py.join sep (map fst o))
  | JStr s => Ok (Py.join sep (chars s))
  | _ => Raise TypeError
  end.

End PyJson.

(** [str(v)] and [repr(v)] *)
Module PyStr.

Definition hex_digit (n : N) : ascii :=
  match n with
  | 0 => "0" | 1 => "1" | 2 => "2" | 3 => "3" | 4 => "4" | 5 => "5"
  | 6 => "6" | 7 => "7" | 8 => "8" | 9 => "9" | 10 => "a" | 11 => "b"
  | 12 => "c" | 13 => "d" | 14 => "e" | _ => "f"
  end%N%char.

(** [str.isprintable] on one character, for code points below 256. *)
Definition isprintable (c : ascii) : bool :=
  let n := N_of_ascii c in
  ((32 <=? n) && (n <? 127) || (161 <=? n) && negb (n =? 173))%N.

Definition backslash : ascii := ascii_of_N 92.
Definition squote : ascii := ascii_of_N 39.
Definition dquote : ascii := ascii_of_N 34.

Definition escape_char (quote c : ascii) : string :=
  let n := N_of_ascii c in
  if Ascii.eqb c quote || Ascii.eqb c backslash then String backslash (String c "")
  else if (n =? 9)%N then String backslash "t"
  else if (n =? 10)%N then String backslash "n"
  else if (n =? 13)%N then String backslash "r"
  else if isprintable c then String c ""
  else String backslash (String "x" (String (hex_digit (n / 16)) (String (hex_digit (n mod 16)) ""))).

Fixpoint escape (quote : ascii) (s : string) : string :=
  match s with
  | EmptyString => EmptyString
  | String c r => escape_char quote c ++ escape quote r
  end.

Fixpoint has_char (c : ascii) (s : string) : bool :=
  match s with
  | EmptyString => false
  | String d r => Ascii.eqb c d || has_char c r
  end.

(** [repr(s)]: double quotes only when [s] has a single quote and no double
    quote. *)
Definition repr_str (s : string) : string :=
  let quote := if has_char squote s && negb (has_char dquote s) then dquote else squote in
  String quote (escape quote s) ++ String quote "".

Definition repr_int (n : Z) : string := NilZero.string_of_int (Z.to_int n).

Fixpoint repr (v : json) : string :=
  match v with
  | JNull => "None"
  | JBool true => "True"
  | JBool false => "False"
  | JNum n => repr_int n
  | JStr s => repr_str s
  | JArr l =>
      "[" ++ (fix elems (l : list json) : string :=
                match l with
                | [] => ""
                | x :: r =>
                    match r with
                    | [] => repr x
                    | _ => repr x ++ ", " ++ elems r
                    end
                end) l ++ "]"
  | JObj o =>
      "{" ++ (fix items (o : list (string * json)) : string :=
                match o with
                | [] => ""
                | (k, x) :: r =>
                    match r with
                    | [] => repr_str k ++ ": " ++ repr x
                    | _ => repr_str k ++ ": " ++ repr x ++ ", " ++ items r
                    end
                end) o ++ "}"
  end.

Definition str (v : json) : string :=
  match v with
  | JStr s => s
  | _ => repr v
  end.

End PyStr.

(** ** The collaborators of the actioner *)

(** Modelled from the spec: the path helper [cli_client.Path], which "builds
    and joins URL-like path segments". A path is kept as the term that built
    it: the template handed to the constructor and the suffixes joined to it. *)
Inductive Path :=
| mkPath (template : string)
| Path_join (p : Path) (suffix : string).

(** Modelled from the spec: the response of the transport client, which
    "returns a response exposing success/failure and an error message and,
    for GET, a content payload": [resp.ok()], [resp.error_message()] and
    [resp.content] ([JNull] is Python's [None]). *)
Record Response := {
  ok : bool;
  error_message : string;
  content : json
}.

(** The requests of [ApiClient()]. [get] receives the path as a plain string
    and the [ignore404] flag. *)
Inductive request :=
| GET (path : string) (ignore404 : bool)
| PATCH (path : Path) (body : json)
| DELETE (path : Path).

(** The transport decides the response to each request. *)
Definition ApiClient := request -> Response.

(** The Display Record: the dict [aaa_data] of [get_openconfig_aaa_aaa]. *)
Module Authentication.
Record t := {
  login : string;
  failthrough : string;
  fallback : string;
  debug : string;
  trace : string
}.
End Authentication.

Module Authorization.
Record t := { login : string }.
End Authorization.

Module Accounting.
Record t := { login : string }.
End Accounting.

Record AaaData := {
  authentication : Authentication.t;
  authorization : Authorization.t;
  accounting : Accounting.t
}.

(** What a handler does to the outside, in order. *)
Inductive event :=
| Call (r : request)
| Stdout (line : string)
| Render (template : string) (data : AaaData).

(** ** Handlers as computations *)

Definition io (A : Type) : Type := ApiClient -> list event * result A.

Definition ret {A} (a : A) : io A := fun _ => ([], Ok a).

Definition bind {A B} (m : io A) (f : A -> io B) : io B :=
  fun api =>
    match m api with
    | (t, Ok a) => let (t', r) := f a api in ((t ++ t')%list, r)
    | (t, Raise e) => (t, Raise e)
    end.

Definition lift {A} (r : result A) : io A := fun _ => ([], r).

Declare Scope io_scope.
Delimit Scope io_scope with io.
Notation "x <- m ;; k" := (bind m (fun x => k))
  (at level 61, m at next level, right associativity) : io_scope.
Notation "m ;; k" := (bind m (fun _ => k))
  (at level 61, right associativity) : io_scope.
Local Open Scope io_scope.

(** [ApiClient().patch(path, body)] and its siblings. *)
Definition send (r : request) : io Response := fun api => ([Call r], Ok (api r)).

(** [print(line)] *)
Definition print (line : string) : io unit := fun _ => ([Stdout line], Ok tt).

(** [show_cli_output(template, data)] *)
Definition show_cli_output (template : string) (data : AaaData) : io unit :=
  fun _ => ([Render template data], Ok tt).

(** ** The actioner *)

Definition AAA_PATH : string := "/restconf/data/openconfig-system:system/aaa".

Definition aaa_path (subpath : option string) : Path :=
  let p := mkPath AAA_PATH in
  match subpath with
  | Some s => if str_truthy s then Path_join p s else p
  | None => p
  end.

Definition check_ok (resp : Response) : io Z :=
  if negb (ok resp) then
    print (error_message resp) ;;
    ret 1
  else ret 0.

Definition option_to_bool (option : string) : Datatypes.option bool :=
  if String.eqb option "enable" then Some true
  else if String.eqb option "disable" then Some false
  else None.

(** [m and m.strip()], as the condition of an [if]. *)
Definition given (m : option string) : bool :=
  match m with
  | Some s => str_truthy s && str_truthy (strip s)
  | None => false
  end.

Definition methods_to_list (method1 method2 : option string) : list string :=
  let methods := [] in
  let methods :=
    match method1 with
    | Some m => if given method1 then (methods ++ [m])%list else methods
    | None => methods
    end in
  let methods :=
    match method2 with
    | Some m => if given method2 then (methods ++ [m])%list else methods
    | None => methods
    end in
  methods.

(** [m == s] for an argument that may be [None]. *)
Definition arg_eqb (m : option string) (s : string) : bool :=
  match m with
  | Some m => String.eqb m s
  | None => false
  end.

(** Sequencing of the operations on parsed JSON, which may raise. *)
Definition result_bind {A B} (r : result A) (f : A -> result B) : result B :=
  match r with
  | Ok a => f a
  | Raise e => Raise e
  end.

Declare Scope result_scope.
Delimit Scope result_scope with result.
Notation "x <- m ;; k" := (result_bind m (fun x => k))
  (at level 61, m at next level, right associativity) : result_scope.

(** Assignments to the entries of [aaa_data]. *)
Definition set_authentication_login (s : string) (d : AaaData) : AaaData :=
  let a := authentication d in
  {| authentication :=
       {| Authentication.login := s;
          Authentication.failthrough := Authentication.failthrough a;
          Authentication.fallback := Authentication.fallback a;
          Authentication.debug := Authentication.debug a;
          Authentication.trace := Authentication.trace a |};
     authorization := authorization d;
     accounting := accounting d |}.

Definition set_authentication_failthrough (s : string) (d : AaaData) : AaaData :=
  let a := authentication d in
  {| authentication :=
       {| Authentication.login := Authentication.login a;
          Authentication.failthrough := s;
          Authentication.fallback := Authentication.fallback a;
          Authentication.debug := Authentication.debug a;
          Authentication.trace := Authentication.trace a |};
     authorization := authorization d;
     accounting := accounting d |}.

Definition set_authentication_fallback (s : string) (d : AaaData) : AaaData :=
  let a := authentication d in
  {| authentication :=
       {| Authentication.login := Authentication.login a;
          Authentication.failthrough := Authentication.failthrough a;
          Authentication.fallback := s;
          Authentication.debug := Authentication.debug a;
          Authentication.trace := Authentication.trace a |};
     authorization := authorization d;
     accounting := accounting d |}.

Definition set_authentication_debug (s : string) (d : AaaData) : AaaData :=
  let a := authentication d in
  {| authentication :=
       {| Authentication.login := Authentication.login a;
          Authentication.failthrough := Authentication.failthrough a;
          Authentication.fallback := Authentication.fallback a;
          Authentication.debug := s;
          Authentication.trace := Authentication.trace a |};
     authorization := authorization d;
     accounting := accounting d |}.

Definition set_authentication_trace (s : string) (d : AaaData) : AaaData :=
  let a := authentication d in
  {| authentication :=
       {| Authentication.login := Authentication.login a;
          Authentication.failthrough := Authentication.failthrough a;
          Authentication.fallback := Authentication.fallback a;
          Authentication.debug := Authentication.debug a;
          Authentication.trace := s |};
     authorization := authorization d;
     accounting := accounting d |}.

Definition set_authorization_login (s : string) (d : AaaData) : AaaData :=
  {| authentication := authentication d;
     authorization := {| Authorization.login := s |};
     accounting := accounting d |}.

Definition set_accounting_login (s : string) (d : AaaData) : AaaData :=
  {| authentication := authentication d;
     authorization := authorization d;
     accounting := {| Accounting.login := s |} |}.

Module Handlers.

Definition delete_openconfig_aaa_aaa_authentication_failthrough (args : list string) : io Z :=
  let path := aaa_path (Some "authentication/config/openconfig-system-ext:failthrough") in
  resp <- send (DELETE path) ;;
  check_ok resp.

Definition patch_openconfig_aaa_aaa_authentication_failthrough
    (option : string) (args : list string) : io Z :=
  if String.eqb option "default" then
    delete_openconfig_aaa_aaa_authentication_failthrough []
  else
    match option_to_bool option with
    | None =>
        print ("Invalid option: " ++ option) ;;
        ret 1
    | Some val =>
        let path := aaa_path (Some "authentication/config") in
        let body :=
          JObj [("openconfig-system:config",
                 JObj [("openconfig-system-ext:failthrough", JBool val)])] in
        resp <- send (PATCH path body) ;;
        check_ok resp
    end.

Definition delete_openconfig_aaa_aaa_authentication_fallback (args : list string) : io Z :=
  let path := aaa_path (Some "authentication/config/openconfig-system-ext:fallback") in
  resp <- send (DELETE path) ;;
  check_ok resp.

Definition patch_openconfig_aaa_aaa_authentication_fallback
    (option : string) (args : list string) : io Z :=
  if String.eqb option "default" then
    delete_openconfig_aaa_aaa_authentication_fallback []
  else
    match option_to_bool option with
    | None =>
        print ("Invalid option: " ++ option) ;;
        ret 1
    | Some val =>
        let path := aaa_path (Some "authentication/config") in
        let body :=
          JObj [("openconfig-system:config",
                 JObj [("openconfig-system-ext:fallback", JBool val)])] in
        resp <- send (PATCH path body) ;;
        check_ok resp
    end.

Definition delete_openconfig_aaa_aaa_authentication_debug (args : list string) : io Z :=
  let path := aaa_path (Some "authentication/config/openconfig-system-ext:debug") in
  resp <- send (DELETE path) ;;
  check_ok resp.

Definition patch_openconfig_aaa_aaa_authentication_debug
    (option : string) (args : list string) : io Z :=
  if String.eqb option "default" then
    delete_openconfig_aaa_aaa_authentication_debug []
  else
    match option_to_bool option with
    | None =>
        print ("Invalid option: " ++ option) ;;
        ret 1
    | Some val =>
        let path := aaa_path (Some "authentication/config") in
        let body :=
          JObj [("openconfig-system:config",
                 JObj [("openconfig-system-ext:debug", JBool val)])] in
        resp <- send (PATCH path body) ;;
        check_ok resp
    end.

Definition delete_openconfig_aaa_aaa_authentication_trace (args : list string) : io Z :=
  let path := aaa_path (Some "authentication/config/openconfig-system-ext:trace") in
  resp <- send (DELETE path) ;;
  check_ok resp.

Definition patch_openconfig_aaa_aaa_authentication_trace
    (option : string) (args : list string) : io Z :=
  if String.eqb option "default" then
    delete_openconfig_aaa_aaa_authentication_trace []
  else
    match option_to_bool option with
    | None =>
        print ("Invalid option: " ++ option) ;;
        ret 1
    | Some val =>
        let path := aaa_path (Some "authentication/config") in
        let body :=
          JObj [("openconfig-system:config",
                 JObj [("openconfig-system-ext:trace", JBool val)])] in
        resp <- send (PATCH path body) ;;
        check_ok resp
    end.

Definition patch_openconfig_aaa_aaa_authentication_login
    (method1 method2 : option string) (args : list string) : io Z :=
  let methods := methods_to_list method1 method2 in
  match methods with
  | [] =>
      print "At least one authentication method is required" ;;
      ret 1
  | _ =>
      let path := aaa_path (Some "authentication/config") in
      let body :=
        JObj [("openconfig-system:config",
               JObj [("authentication-method", JArr (map JStr methods))])] in
      resp <- send (PATCH path body) ;;
      check_ok resp
  end.

Definition delete_openconfig_aaa_aaa_authentication_login (args : list string) : io Z :=
  let path := aaa_path (Some "authentication/config/authentication-method") in
  resp <- send (DELETE path) ;;
  check_ok resp.

Definition patch_openconfig_aaa_aaa_authorization_login
    (method1 method2 : option string) (args : list string) : io Z :=
  let methods := methods_to_list method1 method2 in
  match methods with
  | [] =>
      print "At least one authorization method is required" ;;
      ret 1
  | _ =>
      let path := aaa_path (Some "authorization/config") in
      let body :=
        JObj [("openconfig-system:config",
               JObj [("authorization-method", JArr (map JStr methods))])] in
      resp <- send (PATCH path body) ;;
      check_ok resp
  end.

Definition delete_openconfig_aaa_aaa_authorization_login (args : list string) : io Z :=
  let path := aaa_path (Some "authorization/config/authorization-method") in
  resp <- send (DELETE path) ;;
  check_ok resp.

Definition delete_openconfig_aaa_aaa_accounting_login (args : list string) : io Z :=
  let path := aaa_path (Some "accounting/config/accounting-method") in
  resp <- send (DELETE path) ;;
  check_ok resp.

Definition patch_openconfig_aaa_aaa_accounting_login
    (method1 method2 : option string) (args : list string) : io Z :=
  if arg_eqb method1 "disable" then
    delete_openconfig_aaa_aaa_accounting_login []
  else
    let methods := methods_to_list method1 method2 in
    match methods with
    | [] =>
        print "At least one accounting method is required" ;;
        ret 1
    | _ =>
        let path := aaa_path (Some "accounting/config") in
        let body :=
          JObj [("openconfig-system:config",
                 JObj [("accounting-method", JArr (map JStr methods))])] in
        resp <- send (PATCH path body) ;;
        check_ok resp
    end.

Definition default_aaa_data : AaaData :=
  {| authentication :=
       {| Authentication.login := "local (default)";
          Authentication.failthrough := "False (default)";
          Authentication.fallback := "False (default)";
          Authentication.debug := "False (default)";
          Authentication.trace := "False (default)" |};
     authorization := {| Authorization.login := "local (default)" |};
     accounting := {| Accounting.login := "disable (default)" |} |}.

Definition get_openconfig_aaa_aaa (template : string) (args : list string) : io Z :=
  resp <- send (GET AAA_PATH true) ;;
  if negb (ok resp) then
    print (error_message resp) ;;
    ret 1
  else
    let aaa_data := default_aaa_data in
    aaa_data <- lift (
      if PyJson.truthy (content resp) then
        (data <- PyJson.get (content resp) "openconfig-system:aaa" (JObj []) ;;

         auth <- PyJson.get data "authentication" (JObj []) ;;
         auth_config <- PyJson.get auth "config" (JObj []) ;;
         aaa_data <-
           (has <- PyJson.contains "authentication-method" auth_config ;;
            if has : bool then
              methods <- PyJson.getitem auth_config "authentication-method" ;;
              if PyJson.truthy methods then
                s <- PyJson.join "," methods ;;
                Ok (set_authentication_login s aaa_data)
              else Ok aaa_data
            else Ok aaa_data) ;;

         aaa_data <-
           (has <- PyJson.contains "openconfig-system-ext:failthrough" auth_config ;;
            if has : bool then
              v <- PyJson.getitem auth_config "openconfig-system-ext:failthrough" ;;
              Ok (set_authentication_failthrough (PyStr.str v) aaa_data)
            else Ok aaa_data) ;;

         aaa_data <-
           (has <- PyJson.contains "openconfig-system-ext:fallback" auth_config ;;
            if has : bool then
              v <- PyJson.getitem auth_config "openconfig-system-ext:fallback" ;;
              Ok (set_authentication_fallback (PyStr.str v) aaa_data)
            else Ok aaa_data) ;;

         aaa_data <-
           (has <- PyJson.contains "openconfig-system-ext:debug" auth_config ;;
            if has : bool then
              v <- PyJson.getitem auth_config "openconfig-system-ext:debug" ;;
              Ok (set_authentication_debug (PyStr.str v) aaa_data)
            else Ok aaa_data) ;;

         aaa_data <-
           (has <- PyJson.contains "openconfig-system-ext:trace" auth_config ;;
            if has : bool then
              v <- PyJson.getitem auth_config "openconfig-system-ext:trace" ;;
              Ok (set_authentication_trace (PyStr.str v) aaa_data)
            else Ok aaa_data) ;;

         authz <- PyJson.get data "authorization" (JObj []) ;;
         authz_config <- PyJson.get authz "config" (JObj []) ;;
         aaa_data <-
           (has <- PyJson.contains "authorization-method" authz_config ;;
            if has : bool then
              methods <- PyJson.getitem authz_config "authorization-method" ;;
              if PyJson.truthy methods then
                s <- PyJson.join "," methods ;;
                Ok (set_authorization_login s aaa_data)
              else Ok aaa_data
            else Ok aaa_data) ;;

         acct <- PyJson.get data "accounting" (JObj []) ;;
         acct_config <- PyJson.get acct "config" (JObj []) ;;
         aaa_data <-
           (has <- PyJson.contains "accounting-method" acct_config ;;
            if has : bool then
              methods <- PyJson.getitem acct_config "accounting-method" ;;
              if PyJson.truthy methods then
                s <- PyJson.join "," methods ;;
                Ok (set_accounting_login s aaa_data)
              else Ok aaa_data
            else Ok aaa_data) ;;
         Ok aaa_data)%result
      else Ok aaa_data) ;;
    show_cli_output template aaa_data ;;
    ret 0.

End Handlers.

(** ** Vocabulary of the properties *)

(** The four boolean attributes and their handlers. *)
Inductive flag := Failthrough | Fallback | Debug | Trace.

Definition flag_name (X : flag) : string :=
  match X with
  | Failthrough => "failthrough"
  | Fallback => "fallback"
  | Debug => "debug"
  | Trace => "trace"
  end.

Definition flag_key (X : flag) : string := "openconfig-system-ext:" ++ flag_name X.

Definition set_flag (X : flag) : string -> list string -> io Z :=
  match X with
  | Failthrough => Handlers.patch_openconfig_aaa_aaa_authentication_failthrough
  | Fallback => Handlers.patch_openconfig_aaa_aaa_authentication_fallback
  | Debug => Handlers.patch_openconfig_aaa_aaa_authentication_debug
  | Trace => Handlers.patch_openconfig_aaa_aaa_authentication_trace
  end.

Definition delete_flag (X : flag) : list string -> io Z :=
  match X with
  | Failthrough => Handlers.delete_openconfig_aaa_aaa_authentication_failthrough
  | Fallback => Handlers.delete_openconfig_aaa_aaa_authentication_fallback
  | Debug => Handlers.delete_openconfig_aaa_aaa_authentication_debug
  | Trace => Handlers.delete_openconfig_aaa_aaa_authentication_trace
  end.

(** The three method-list families and their handlers. *)
Inductive family := AuthenticationLogin | AuthorizationLogin | AccountingLogin.

Definition family_name (F : family) : string :=
  match F with
  | AuthenticationLogin => "authentication"
  | AuthorizationLogin => "authorization"
  | AccountingLogin => "accounting"
  end.

Definition method_key (F : family) : string := family_name F ++ "-method".

Definition set_login (F : family) : option string -> option string -> list string -> io Z :=
  match F with
  | AuthenticationLogin => Handlers.patch_openconfig_aaa_aaa_authentication_login
  | AuthorizationLogin => Handlers.patch_openconfig_aaa_aaa_authorization_login
  | AccountingLogin => Handlers.patch_openconfig_aaa_aaa_accounting_login
  end.

Definition delete_login (F : family) : list string -> io Z :=
  match F with
  | AuthenticationLogin => Handlers.delete_openconfig_aaa_aaa_authentication_login
  | AuthorizationLogin => Handlers.delete_openconfig_aaa_aaa_authorization_login
  | AccountingLogin => Handlers.delete_openconfig_aaa_aaa_accounting_login
  end.

(** A path below the AAA root. *)
Definition under_aaa (subpath : string) : Path := Path_join (mkPath AAA_PATH) subpath.

(** The body [{"openconfig-system:config": {field: value}}] of a PATCH. *)
Definition config_body (field : string) (value : json) : json :=
  JObj [("openconfig-system:config", JObj [(field, value)])].

(** Projections of a trace. *)
Definition requests (t : list event) : list request :=
  flat_map (fun e => match e with Call r => [r] | _ => [] end) t.

Definition rendered (t : list event) : list (string * AaaData) :=
  flat_map (fun e => match e with Render tpl d => [(tpl, d)] | _ => [] end) t.

(** One request and what its answer turns into: on success nothing is
    printed and the status is 0, otherwise the transport's error message is
    printed and the status is 1. *)
Definition exchange (r : request) (api : ApiClient) : list event * result Z :=
  if ok (api r) then ([Call r], Ok 0)
  else ([Call r; Stdout (error_message (api r))], Ok 1).

(** The entries of the Display Record, by family and by flag, and the
    defaults of the login entries. *)
Definition login_of (F : family) (d : AaaData) : string :=
  match F with
  | AuthenticationLogin => Authentication.login (authentication d)
  | AuthorizationLogin => Authorization.login (authorization d)
  | AccountingLogin => Accounting.login (accounting d)
  end.

Definition flag_of (X : flag) (d : AaaData) : string :=
  match X with
  | Failthrough => Authentication.failthrough (authentication d)
  | Fallback => Authentication.fallback (authentication d)
  | Debug => Authentication.debug (authentication d)
  | Trace => Authentication.trace (authentication d)
  end.

Definition default_login (F : family) : string :=
  match F with
  | AuthenticationLogin => "local (default)"
  | AuthorizationLogin => "local (default)"
  | AccountingLogin => "disable (default)"
  end.

(** A string made of whitespace only (the empty string included). *)
Fixpoint all_space (s : string) : bool :=
  match s with
  | EmptyString => true
  | String c r => isspace c && all_space r
  end.

(** The candidate as the list keeps it: itself when it is non-empty after
    trimming whitespace, nothing otherwise. *)
Definition kept (m : option string) : list string :=
  match m with
  | Some s => if string_dec (strip s) "" then [] else [s]
  | None => []
  end.

(** A candidate of the method list that is blank: absent, empty or made of
    whitespace only. *)
Definition blank (m : option string) : Prop :=
  match m with
  | Some s => strip s = ""
  | None => True
  end.

(** The strings among the elements of a list. *)
Definition strings (l : list json) : list string :=
  flat_map (fun x => match x with JStr s => [s] | _ => [] end) l.

(** The key is absent, or its value passes the test. *)
Definition absent_or (p : json -> bool) (k : string) (o : list (string * json)) : bool :=
  match lookup k o with
  | Some v => p v
  | None => true
  end.

Definition is_method_list (v : json) : bool :=
  match v with
  | JArr l => forallb (fun x => match x with JStr _ => true | _ => false end) l
  | _ => false
  end.

Definition is_dict_of (p : list (string * json) -> bool) (v : json) : bool :=
  match v with JObj o => p o | _ => false end.

Definition branch_well_formed (F : family) : list (string * json) -> bool :=
  absent_or (is_dict_of (absent_or is_method_list (method_key F))) "config".

Definition aaa_well_formed (d : list (string * json)) : bool :=
  absent_or (is_dict_of (branch_well_formed AuthenticationLogin)) "authentication" d
  && absent_or (is_dict_of (branch_well_formed AuthorizationLogin)) "authorization" d
  && absent_or (is_dict_of (branch_well_formed AccountingLogin)) "accounting" d.

(** Well-formed content of a GET: the containers of the AAA tree are dicts
    and a method attribute is a list of strings, as the schema of the store
    has them. An absent key is well formed, and so are [None] and the other
    values that count as false. Nothing is asked of the flags. *)
Definition well_formed (content : json) : bool :=
  match content with
  | JObj o => absent_or (is_dict_of aaa_well_formed) "openconfig-system:aaa" o
  | _ => negb (PyJson.truthy content)
  end.

(** The dict under a key, empty when the key is absent. *)
Definition items_at (k : string) (v : json) : json :=
  match v with
  | JObj o => match lookup k o with Some x => x | None => JObj [] end
  | _ => JObj []
  end.

(** The [config] node of a branch in the content of a GET: its items, none
    when the node or anything above it is absent. *)
Definition store_config (content : json) (F : family) : list (string * json) :=
  match items_at "config" (items_at (family_name F) (items_at "openconfig-system:aaa" content)) with
  | JObj c => c
  | _ => []
  end.

(** The value a method attribute overwrites the default with: the
    comma-joined list when the key is present and the list is not empty. *)
Definition methods_value (key : string) (c : list (string * json)) : option string :=
  match lookup key c with
  | Some (JArr (m :: ms)) => Some (Py.join "," (strings (m :: ms)))
  | _ => None
  end.

(** The value a flag overwrites the default with: the string form of its
    value when the key is present. *)
Definition flag_value (key : string) (c : list (string * json)) : option string :=
  match lookup key c with
  | Some v => Some (PyStr.str v)
  | None => None
  end.

(** What the login entry of a family and the entry of a flag show. *)
Definition shown_methods (c : list (string * json)) (F : family) (default : string) : string :=
  match methods_value (method_key F) c with
  | Some s => s
  | None => default
  end.

Definition shown_flag (c : list (string * json)) (X : flag) : string :=
  match flag_value (flag_key X) c with
  | Some s => s
  | None => "False (default)"
  end.

(** An assignment that happens only when there is a value. *)
Definition overwrite (value : option string) (set : string -> AaaData -> AaaData)
    (aaa_data : AaaData) : AaaData :=
  match value with
  | Some s => set s aaa_data
  | None => aaa_data
  end.

(** The Display Record merged from the content of a GET. *)
Definition merged (content : json) : AaaData :=
  let authn := store_config content AuthenticationLogin in
  {| authentication :=
       {| Authentication.login := shown_methods authn AuthenticationLogin "local (default)";
          Authentication.failthrough := shown_flag authn Failthrough;
          Authentication.fallback := shown_flag authn Fallback;
          Authentication.debug := shown_flag authn Debug;
          Authentication.trace := shown_flag authn Trace |};
     authorization :=
       {| Authorization.login :=
            shown_methods (store_config content AuthorizationLogin) AuthorizationLogin
              "local (default)" |};
     accounting :=
       {| Accounting.login :=
            shown_methods (store_config content AccountingLogin) AccountingLogin
              "disable (default)" |} |}.

(** The steps of [get_openconfig_aaa_aaa] between the GET and the rendering,
    named one by one. *)
Definition overwrite_methods (key : string) (set : string -> AaaData -> AaaData)
    (config : json) (aaa_data : AaaData) : result AaaData :=
  (has <- PyJson.contains key config ;;
   if has : bool then
     methods <- PyJson.getitem config key ;;
     if PyJson.truthy methods then
       s <- PyJson.join "," methods ;;
       Ok (set s aaa_data)
     else Ok aaa_data
   else Ok aaa_data)%result.

Definition overwrite_flag (key : string) (set : string -> AaaData -> AaaData)
    (config : json) (aaa_data : AaaData) : result AaaData :=
  (has <- PyJson.contains key config ;;
   if has : bool then
     v <- PyJson.getitem config key ;;
     Ok (set (PyStr.str v) aaa_data)
   else Ok aaa_data)%result.

Definition parse_content (content : json) (aaa_data : AaaData) : result AaaData :=
  if PyJson.truthy content then
    (data <- PyJson.get content "openconfig-system:aaa" (JObj []) ;;
     auth <- PyJson.get data "authentication" (JObj []) ;;
     auth_config <- PyJson.get auth "config" (JObj []) ;;
     aaa_data <- overwrite_methods "authentication-method" set_authentication_login
                   auth_config aaa_data ;;
     aaa_data <- overwrite_flag "openconfig-system-ext:failthrough"
                   set_authentication_failthrough auth_config aaa_data ;;
     aaa_data <- overwrite_flag "openconfig-system-ext:fallback"
                   set_authentication_fallback auth_config aaa_data ;;
     aaa_data <- overwrite_flag "openconfig-system-ext:debug"
                   set_authentication_debug auth_config aaa_data ;;
     aaa_data <- overwrite_flag "openconfig-system-ext:trace"
                   set_authentication_trace auth_config aaa_data ;;
     authz <- PyJson.get data "authorization" (JObj []) ;;
     authz_config <- PyJson.get authz "config" (JObj []) ;;
     aaa_data <- overwrite_methods "authorization-method" set_authorization_login
                   authz_config aaa_data ;;
     acct <- PyJson.get data "accounting" (JObj []) ;;
     acct_config <- PyJson.get acct "config" (JObj []) ;;
     aaa_data <- overwrite_methods "accounting-method" set_accounting_login
                   acct_config aaa_data ;;
     Ok aaa_data)%result
  else Ok aaa_data.

(** A transport for the examples: every request succeeds, and a GET gets
    the given content. *)
Definition serving (content : json) : ApiClient :=
  fun _ => {| ok := true; error_message := ""; content := content |}.

(** A transport that fails every request with the given message. *)
Definition failing (message : string) : ApiClient :=
  fun _ => {| ok := false; error_message := message; content := JNull |}.

(** The content of the actioner's own test of the Get-All handler. *)
Definition sample_content : json :=
  JObj [("openconfig-system:aaa", JObj [
    ("authentication", JObj [("config", JObj [
       ("authentication-method", JArr [JStr "tacacs+"; JStr "local"]);
       ("openconfig-system-ext:failthrough", JBool true);
       ("openconfig-system-ext:fallback", JBool false);
       ("openconfig-system-ext:debug", JBool true);
       ("openconfig-system-ext:trace", JBool false)])]);
    ("authorization", JObj [("config", JObj [("authorization-method", JArr [JStr "tacacs+"])])]);
    ("accounting", JObj [("config", JObj [("accounting-method", JArr [JStr "tacacs+"])])])])].

(** ** The entry point *)

(** The call [h( *args )] of a handler with a required first parameter: a
    call without it is a TypeError before the handler runs. *)
Definition bind_required (h : string -> list string -> io Z) (args : list string) : io Z :=
  match args with
  | first :: rest => h first rest
  | [] => lift (Raise TypeError)
  end.

(** The same for [(method1, method2=None, *args)]. *)
Definition bind_methods (h : option string -> option string -> list string -> io Z)
    (args : list string) : io Z :=
  match args with
  | method1 :: method2 :: rest => h (Some method1) (Some method2) rest
  | [method1] => h (Some method1) None []
  | [] => lift (Raise TypeError)
  end.

(** The static methods of the class [Handlers], by name, each with the
    binding of its parameters. *)
Definition static_methods : list (string * (list string -> io Z)) :=
  [("patch_openconfig_aaa_aaa_authentication_failthrough",
    bind_required Handlers.patch_openconfig_aaa_aaa_authentication_failthrough);
   ("delete_openconfig_aaa_aaa_authentication_failthrough",
    Handlers.delete_openconfig_aaa_aaa_authentication_failthrough);
   ("patch_openconfig_aaa_aaa_authentication_fallback",
    bind_required Handlers.patch_openconfig_aaa_aaa_authentication_fallback);
   ("delete_openconfig_aaa_aaa_authentication_fallback",
    Handlers.delete_openconfig_aaa_aaa_authentication_fallback);
   ("patch_openconfig_aaa_aaa_authentication_debug",
    bind_required Handlers.patch_openconfig_aaa_aaa_authentication_debug);
   ("delete_openconfig_aaa_aaa_authentication_debug",
    Handlers.delete_openconfig_aaa_aaa_authentication_debug);
   ("patch_openconfig_aaa_aaa_authentication_trace",
    bind_required Handlers.patch_openconfig_aaa_aaa_authentication_trace);
   ("delete_openconfig_aaa_aaa_authentication_trace",
    Handlers.delete_openconfig_aaa_aaa_authentication_trace);
   ("patch_openconfig_aaa_aaa_authentication_login",
    bind_methods Handlers.patch_openconfig_aaa_aaa_authentication_login);
   ("delete_openconfig_aaa_aaa_authentication_login",
    Handlers.delete_openconfig_aaa_aaa_authentication_login);
   ("patch_openconfig_aaa_aaa_authorization_login",
    bind_methods Handlers.patch_openconfig_aaa_aaa_authorization_login);
   ("delete_openconfig_aaa_aaa_authorization_login",
    Handlers.delete_openconfig_aaa_aaa_authorization_login);
   ("patch_openconfig_aaa_aaa_accounting_login",
    bind_methods Handlers.patch_openconfig_aaa_aaa_accounting_login);
   ("delete_openconfig_aaa_aaa_accounting_login",
    Handlers.delete_openconfig_aaa_aaa_accounting_login);
   ("get_openconfig_aaa_aaa",
    bind_required Handlers.get_openconfig_aaa_aaa)].

Fixpoint static_method (func : string) (table : list (string * (list string -> io Z)))
    : option (list string -> io Z) :=
  match table with
  | [] => None
  | (name, h) :: r => if String.eqb func name then Some h else static_method func r
  end.

(** [run(func, args)], for the names of the static methods of [Handlers].
    For any other name there is no result in the model: [getattr] raises
    AttributeError, unless the name is one that every Python class answers
    to. *)
Definition run (func : string) (args : list string) : option (io Z) :=
  match static_method func static_methods with
  | Some h => Some (h args)
  | None => None
  end.

(** Case analysis on the name of a static method. *)
Ltac find_static_method H :=
  lazymatch type of H with
  | (if String.eqb ?f ?k then _ else _) = Some _ =>
      let E := fresh "E" in
      destruct (String.eqb f k) eqn:E;
      [apply String.eqb_eq in E; injection H as <-; subst f | find_static_method H]
  | _ => discriminate H
  end.

Ltac by_static_method H :=
  unfold static_methods in H; cbn [static_method] in H; find_static_method H.

(** The lines a trace prints. *)
Definition printed (t : list event) : list string :=
  flat_map (fun e => match e with Stdout l => [l] | _ => [] end) t.

(** A request that stays in the AAA tree: the GET of the root with 404
    ignored, a PATCH to the [config] node of a branch with a body of one
    field, a DELETE of one attribute of such a node. *)
Definition within_aaa (r : request) : Prop :=
  match r with
  | GET p ignore404 => p = AAA_PATH /\ ignore404 = true
  | PATCH p body =>
      exists branch field value,
        p = Path_join (mkPath AAA_PATH) (branch ++ "/config")
        /\ body = JObj [("openconfig-system:config", JObj [(field, value)])]
  | DELETE p =>
      exists branch field,
        p = Path_join (mkPath AAA_PATH) (branch ++ "/config/" ++ field)
  end.

(** The ways a call of a handler goes: one PATCH or DELETE and the status its
    answer gives; a message and status 1 without a request; a TypeError for a
    missing argument; and, for the GET, a rendering, an exception on the
    content, or the error message of the transport. *)
Inductive behaviour (api : ApiClient) : list event * result Z -> Prop :=
| Exchanged r :
    within_aaa r -> (forall p i, r <> GET p i) -> behaviour api (exchange r api)
| Rejected line :
    behaviour api ([Stdout line], Ok 1)
| Unbound :
    behaviour api ([], Raise TypeError)
| Shown template d :
    ok (api (GET AAA_PATH true)) = true ->
    behaviour api ([Call (GET AAA_PATH true); Render template d], Ok 0)
| Unreadable e :
    ok (api (GET AAA_PATH true)) = true ->
    behaviour api ([Call (GET AAA_PATH true)], Raise e)
| Unanswered :
    ok (api (GET AAA_PATH true)) = false ->
    behaviour api ([Call (GET AAA_PATH true);
                    Stdout (error_message (api (GET AAA_PATH true)))], Ok 1).

(** The content of a GET when the store holds, in the [config] node of one
    branch, the items that a PATCH body carried for it. *)
Definition served_back (branch : string) (body : json) : json :=
  JObj [("openconfig-system:aaa",
         JObj [(branch, JObj [("config", items_at "openconfig-system:config" body)])])].

(** A transport that accepts every request and answers each GET with the
    given content. *)
Definition store_holding (held : json) : ApiClient :=
  fun r =>
    match r with
    | GET _ _ => {| ok := true; error_message := ""; content := held |}
    | _ => {| ok := true; error_message := ""; content := JNull |}
    end.

(** The body of the PATCH in a trace, [None] when there is none. *)
Definition patched (t : list event) : option json :=
  match requests t with
  | [PATCH _ body] => Some body
  | _ => None
  end.

(** The Display Record a trace renders, [None] when it renders nothing. *)
Definition displayed (t : list event) : option AaaData :=
  match rendered t with
  | [(_, d)] => Some d
  | _ => None
  end.

(** An element that is a string. *)
Definition is_string (v : json) : bool :=
  match v with JStr _ => true | _ => false end.

(** ** Runs on concrete inputs *)

Example str_True : PyStr.str (JBool true) = "True".
Proof. reflexivity. Qed.

Example repr_dict :
  PyStr.repr (JObj [("a", JArr [JNum (-12); JNull]); ("it's", JStr "x")])
  = "{'a': [-12, None], " ++ String PyStr.dquote "it's" ++ String PyStr.dquote ": 'x'}".
Proof. reflexivity. Qed.

Example strip_local : strip "  local " = "local" /\ strip "   " = "" /\ strip "a b" = "a b".
Proof. repeat split. Qed.

Example run_get_sample :
  Handlers.get_openconfig_aaa_aaa "show_aaa.j2" [] (serving sample_content)
  = ([Call (GET AAA_PATH true);
      Render "show_aaa.j2"
        {| authentication :=
             {| Authentication.login := "tacacs+,local";
                Authentication.failthrough := "True";
                Authentication.fallback := "False";
                Authentication.debug := "True";
                Authentication.trace := "False" |};
           authorization := {| Authorization.login := "tacacs+" |};
           accounting := {| Accounting.login := "tacacs+" |} |}],
     Ok 0).
Proof. reflexivity. Qed.

Example run_get_none :
  Handlers.get_openconfig_aaa_aaa "show_aaa.j2" [] (serving JNull)
  = ([Call (GET AAA_PATH true); Render "show_aaa.j2" Handlers.default_aaa_data], Ok 0).
Proof. reflexivity. Qed.

Example run_get_not_a_string :
  Handlers.get_openconfig_aaa_aaa "show_aaa.j2" []
    (serving (JObj [("openconfig-system:aaa", JObj [
       ("authorization", JObj [("config", JObj [("authorization-method", JArr [JNum 1])])])])]))
  = ([Call (GET AAA_PATH true)], Raise TypeError).
Proof. reflexivity. Qed.

Example run_get_error :
  Handlers.get_openconfig_aaa_aaa "show_aaa.j2" [] (failing "Connection failed")
  = ([Call (GET AAA_PATH true); Stdout "Connection failed"], Ok 1).
Proof. reflexivity. Qed.

Example run_patch_failthrough_enable :
  Handlers.patch_openconfig_aaa_aaa_authentication_failthrough "enable" [] (serving JNull)
  = ([Call (PATCH (under_aaa "authentication/config")
                  (config_body "openconfig-system-ext:failthrough" (JBool true)))],
     Ok 0).
Proof. reflexivity. Qed.

Example run_patch_trace_invalid :
  Handlers.patch_openconfig_aaa_aaa_authentication_trace "invalid" [] (serving JNull)
  = ([Stdout "Invalid option: invalid"], Ok 1).
Proof. reflexivity. Qed.

Example run_patch_login_none :
  Handlers.patch_openconfig_aaa_aaa_authentication_login (Some "") None [] (serving JNull)
  = ([Stdout "At least one authentication method is required"], Ok 1).
Proof. reflexivity. Qed.

Example run_patch_accounting_disable :
  Handlers.patch_openconfig_aaa_aaa_accounting_login (Some "disable") None [] (serving JNull)
  = ([Call (DELETE (under_aaa "accounting/config/accounting-method"))], Ok 0).
Proof. reflexivity. Qed.

Example methods_to_list_tests :
  methods_to_list (Some "local") None = ["local"]
  /\ methods_to_list (Some "tacacs+") (Some "local") = ["tacacs+"; "local"]
  /\ methods_to_list None None = []
  /\ methods_to_list (Some "") None = []
  /\ methods_to_list (Some "  ") None = []
  /\ methods_to_list (Some "local") (Some "") = ["local"].
Proof. repeat split. Qed.

(** ** Trimming and the method list *)

Lemma lstrip_empty s : lstrip s = "" <-> all_space s = true.
Proof.
  induction s as [|c r IH]; simpl.
  - tauto.
  - destruct (isspace c); simpl; [exact IH|].
    split; discriminate.
Qed.

Lemma rstrip_lstrip_empty s : rstrip (lstrip s) = "" -> lstrip s = "".
Proof.
  induction s as [|c r IH]; simpl; [reflexivity|].
  destruct (isspace c) eqn:Hc; [exact IH|].
  simpl. rewrite Hc. destruct (rstrip r); discriminate.
Qed.

Lemma strip_empty_iff s : strip s = "" <-> all_space s = true.
Proof.
  unfold strip. rewrite <- lstrip_empty. split.
  - apply rstrip_lstrip_empty.
  - intros ->. reflexivity.
Qed.

Lemma given_iff s : given (Some s) = true <-> strip s <> "".
Proof.
  unfold given. destruct s as [|c r].
  - simpl. split; [discriminate | intros H; now elim H].
  - cbn [str_truthy andb]. destruct (strip (String c r)); simpl.
    + split; [discriminate | intros H; now elim H].
    + split; [discriminate | reflexivity].
Qed.

Lemma given_kept m : (if given m then kept m = match m with Some s => [s] | None => [] end
                      else kept m = []).
Proof.
  destruct m as [s|]; [|reflexivity].
  destruct (given (Some s)) eqn:G; unfold kept; destruct (string_dec (strip s) "") as [E|E];
    try reflexivity.
  - apply given_iff in G. contradiction.
  - apply given_iff in E. congruence.
Qed.

Lemma methods_to_list_kept m1 m2 : methods_to_list m1 m2 = (kept m1 ++ kept m2)%list.
Proof.
  unfold methods_to_list.
  pose proof (given_kept m1) as H1. pose proof (given_kept m2) as H2.
  destruct m1 as [s1|], m2 as [s2|];
    repeat match goal with
           | H : context [given ?m] |- _ => destruct (given m)
           end;
    rewrite ?H1, ?H2; reflexivity.
Qed.

Lemma kept_blank m : kept m = [] <-> blank m.
Proof.
  destruct m as [s|]; simpl; [|tauto].
  destruct (string_dec (strip s) ""); split; try tauto; discriminate.
Qed.

Lemma kept_nonblank s : strip s <> "" -> kept (Some s) = [s].
Proof.
  intros H. simpl. destruct (string_dec (strip s) ""); [contradiction | reflexivity].
Qed.

Lemma methods_to_list_empty m1 m2 : methods_to_list m1 m2 = [] <-> blank m1 /\ blank m2.
Proof.
  rewrite methods_to_list_kept, <- !kept_blank. split.
  - intros H. apply app_eq_nil in H. exact H.
  - intros [-> ->]. reflexivity.
Qed.

(** ** The content of a GET *)

Lemma get_openconfig_aaa_aaa_steps template args :
  Handlers.get_openconfig_aaa_aaa template args
  = (resp <- send (GET AAA_PATH true) ;;
     if negb (ok resp) then
       print (error_message resp) ;;
       ret 1
     else
       aaa_data <- lift (parse_content (content resp) Handlers.default_aaa_data) ;;
       show_cli_output template aaa_data ;;
       ret 0).
Proof. reflexivity. Qed.

Lemma strings_of_strings l :
  forallb (fun x => match x with JStr _ => true | _ => false end) l = true ->
  PyJson.strings_of l = Ok (strings l).
Proof.
  induction l as [|x r IH]; simpl; [reflexivity|].
  destruct x; try discriminate. simpl.
  intros H. rewrite (IH H). reflexivity.
Qed.

Lemma overwrite_methods_ok key set c d :
  absent_or is_method_list key c = true ->
  overwrite_methods key set (JObj c) d = Ok (overwrite (methods_value key c) set d).
Proof.
  unfold absent_or, overwrite_methods, methods_value. simpl.
  destruct (lookup key c) as [v|]; simpl; [|reflexivity].
  destruct v; simpl; try discriminate.
  destruct l as [|m ms]; [reflexivity|].
  intros H. cbn [PyJson.truthy PyJson.join].
  rewrite (strings_of_strings _ H). reflexivity.
Qed.

Lemma overwrite_flag_ok key set c d :
  overwrite_flag key set (JObj c) d = Ok (overwrite (flag_value key c) set d).
Proof.
  unfold overwrite_flag, flag_value. simpl.
  destruct (lookup key c); reflexivity.
Qed.

Lemma get_dict p k o :
  absent_or (is_dict_of p) k o = true -> p [] = true ->
  exists o', PyJson.get (JObj o) k (JObj []) = Ok (JObj o')
             /\ items_at k (JObj o) = JObj o' /\ p o' = true.
Proof.
  unfold absent_or. simpl. intros H H0.
  destruct (lookup k o) as [v|].
  - destruct v; try discriminate. eexists; repeat split. exact H.
  - eexists; repeat split. exact H0.
Qed.

Lemma parse_content_ok content :
  well_formed content = true ->
  parse_content content Handlers.default_aaa_data = Ok (merged content).
Proof.
  intros H. unfold parse_content.
  destruct content as [| b | n | s | l | o];
    try (unfold well_formed in H;
         destruct (PyJson.truthy _); [discriminate H | reflexivity]).
  destruct o as [|x o]; [reflexivity|].
  set (top := x :: o) in *. cbn [PyJson.truthy]. unfold top at 1.
  cbn [well_formed] in H.
  destruct (get_dict _ _ _ H eq_refl) as (d & -> & Ed & Hd).
  unfold aaa_well_formed in Hd.
  apply andb_prop in Hd. destruct Hd as [Hd Hacct].
  apply andb_prop in Hd. destruct Hd as [Hauth Hauthz].
  destruct (get_dict _ _ _ Hauth eq_refl) as (a & Ga & Ea & Ha).
  destruct (get_dict _ _ _ Ha eq_refl) as (ac & Gac & Eac & Hac).
  destruct (get_dict _ _ _ Hauthz eq_refl) as (z & Gz & Ez & Hz).
  destruct (get_dict _ _ _ Hz eq_refl) as (zc & Gzc & Ezc & Hzc).
  destruct (get_dict _ _ _ Hacct eq_refl) as (t & Gt & Et & Ht).
  destruct (get_dict _ _ _ Ht eq_refl) as (tc & Gtc & Etc & Htc).
  cbn [result_bind]. rewrite Ga. cbn [result_bind]. rewrite Gac. cbn [result_bind].
  rewrite (overwrite_methods_ok "authentication-method" _ ac _ Hac). cbn [result_bind].
  do 4 (rewrite overwrite_flag_ok; cbn [result_bind]).
  rewrite Gz. cbn [result_bind]. rewrite Gzc. cbn [result_bind].
  rewrite (overwrite_methods_ok "authorization-method" _ zc _ Hzc). cbn [result_bind].
  rewrite Gt. cbn [result_bind]. rewrite Gtc. cbn [result_bind].
  rewrite (overwrite_methods_ok "accounting-method" _ tc _ Htc).
  f_equal. unfold merged, store_config.
  cbn [family_name]. rewrite Ed, Ea, Eac, Ez, Ezc, Et, Etc.
  unfold shown_methods, shown_flag. cbn [method_key family_name flag_key flag_name append].
  destruct (methods_value "authentication-method" ac),
    (flag_value "openconfig-system-ext:failthrough" ac),
    (flag_value "openconfig-system-ext:fallback" ac),
    (flag_value "openconfig-system-ext:debug" ac),
    (flag_value "openconfig-system-ext:trace" ac),
    (methods_value "authorization-method" zc),
    (methods_value "accounting-method" tc);
    reflexivity.
Qed.

Lemma get_fails template args api :
  ok (api (GET AAA_PATH true)) = false ->
  Handlers.get_openconfig_aaa_aaa template args api
  = ([Call (GET AAA_PATH true); Stdout (error_message (api (GET AAA_PATH true)))], Ok 1).
Proof.
  intros H. rewrite get_openconfig_aaa_aaa_steps.
  unfold bind, send. rewrite H. reflexivity.
Qed.

Lemma get_parses template args api :
  ok (api (GET AAA_PATH true)) = true ->
  Handlers.get_openconfig_aaa_aaa template args api
  = match parse_content (content (api (GET AAA_PATH true))) Handlers.default_aaa_data with
    | Ok d => ([Call (GET AAA_PATH true); Render template d], Ok 0)
    | Raise e => ([Call (GET AAA_PATH true)], Raise e)
    end.
Proof.
  intros H. rewrite get_openconfig_aaa_aaa_steps.
  unfold bind, send, lift. rewrite H. cbn [negb].
  destruct (parse_content _ _); reflexivity.
Qed.

Lemma get_renders template args api :
  ok (api (GET AAA_PATH true)) = true ->
  well_formed (content (api (GET AAA_PATH true))) = true ->
  Handlers.get_openconfig_aaa_aaa template args api
  = ([Call (GET AAA_PATH true); Render template (merged (content (api (GET AAA_PATH true))))],
     Ok 0).
Proof.
  intros H W. rewrite (get_parses _ _ _ H), (parse_content_ok _ W). reflexivity.
Qed.

(** ** Requests and their outcome *)

Lemma send_check_ok r api : (resp <- send r ;; check_ok resp) api = exchange r api.
Proof.
  unfold bind, send, check_ok, exchange.
  destruct (ok (api r)); reflexivity.
Qed.

Lemma requests_exchange r api : requests (fst (exchange r api)) = [r].
Proof. unfold exchange. destruct (ok (api r)); reflexivity. Qed.

Lemma delete_login_exchange F args api :
  delete_login F args api
  = exchange (DELETE (under_aaa (family_name F ++ "/config/" ++ method_key F))) api.
Proof. destruct F; apply send_check_ok. Qed.

Lemma accounting_disable_requests m2 args api :
  requests (fst (set_login AccountingLogin (Some "disable") m2 args api))
  = [DELETE (aaa_path (Some "accounting/config/accounting-method"))].
Proof.
  change (set_login AccountingLogin (Some "disable") m2 args api)
    with (delete_login AccountingLogin [] api).
  rewrite delete_login_exchange. apply requests_exchange.
Qed.

Lemma set_login_patches F m1 m2 args api m ms :
  match F with AccountingLogin => arg_eqb m1 "disable" | _ => false end = false ->
  methods_to_list m1 m2 = m :: ms ->
  set_login F m1 m2 args api
  = exchange (PATCH (under_aaa (family_name F ++ "/config"))
                    (config_body (method_key F) (JArr (map JStr (m :: ms))))) api.
Proof.
  intros HF E. destruct F; simpl;
    [unfold Handlers.patch_openconfig_aaa_aaa_authentication_login
    |unfold Handlers.patch_openconfig_aaa_aaa_authorization_login
    |unfold Handlers.patch_openconfig_aaa_aaa_accounting_login; rewrite HF];
    rewrite E; apply send_check_ok.
Qed.

(** ** The boolean attributes *)

(** C1. For each of the four boolean attributes and each of the options
    "enable" and "disable", the Set handler issues exactly one request, a
    PATCH to [authentication/config] whose body is
    [{"openconfig-system:config": {"openconfig-system-ext:X": b}}] with [b]
    true for "enable" and false for "disable"; it returns 0 when the response
    reports success, and prints the transport's error message and returns 1
    when it does not. *)
Theorem set_flag_enable_disable (X : flag) (b : bool) (args : list string) (api : ApiClient) :
  let v := if b then "enable" else "disable" in
  let r := PATCH (Path_join (mkPath "/restconf/data/openconfig-system:system/aaa")
                    "authentication/config")
                 (JObj [("openconfig-system:config",
                         JObj [("openconfig-system-ext:" ++ flag_name X, JBool b)])]) in
  set_flag X v args api
  = (if ok (api r) then ([Call r], Ok 0)
     else ([Call r; Stdout (error_message (api r))], Ok 1))
  /\ requests (fst (set_flag X v args api)) = [r].
Proof.
  intros v r.
  assert (E : set_flag X v args api = exchange r api)
    by (destruct X, b; apply send_check_ok).
  rewrite E. split; [reflexivity | apply requests_exchange].
Qed.

(** C3. For each boolean attribute, the Set handler called with "default"
    does what the Delete handler of the attribute does and returns its
    status: one DELETE at [authentication/config/openconfig-system-ext:X] and
    no PATCH. The option mapper has no mapping for "default", and its
    "Invalid option" is not what happens: the delegation comes first. *)
Theorem set_flag_default (X : flag) (args : list string) (api : ApiClient) :
  let r := DELETE (Path_join (mkPath "/restconf/data/openconfig-system:system/aaa")
                     ("authentication/config/openconfig-system-ext:" ++ flag_name X)) in
  set_flag X "default" args api = delete_flag X [] api
  /\ delete_flag X [] api
     = (if ok (api r) then ([Call r], Ok 0)
        else ([Call r; Stdout (error_message (api r))], Ok 1))
  /\ requests (fst (set_flag X "default" args api)) = [r]
  /\ option_to_bool "default" = None.
Proof.
  intros r.
  assert (E : set_flag X "default" args api = delete_flag X [] api) by (destruct X; reflexivity).
  assert (D : delete_flag X [] api = exchange r api) by (destruct X; apply send_check_ok).
  rewrite E, D. repeat split. apply requests_exchange.
Qed.

(** C5. For each boolean attribute and each option other than "enable",
    "disable" and "default", the Set handler makes no request, prints
    "Invalid option: " followed by the option, and returns 1. The option
    mapper is total: "enable" maps to true, "disable" to false, and every
    other string has no mapping. *)
Theorem set_flag_invalid (X : flag) (w : string) (args : list string) (api : ApiClient) :
  w <> "enable" -> w <> "disable" -> w <> "default" ->
  set_flag X w args api = ([Stdout ("Invalid option: " ++ w)], Ok 1)
  /\ requests (fst (set_flag X w args api)) = []
  /\ option_to_bool w = None
  /\ option_to_bool "enable" = Some true
  /\ option_to_bool "disable" = Some false.
Proof.
  intros He Hd Hf.
  apply String.eqb_neq in He, Hd, Hf.
  assert (M : option_to_bool w = None) by (unfold option_to_bool; rewrite He, Hd; reflexivity).
  assert (E : set_flag X w args api = ([Stdout ("Invalid option: " ++ w)], Ok 1)).
  { destruct X; simpl;
      [unfold Handlers.patch_openconfig_aaa_aaa_authentication_failthrough
      |unfold Handlers.patch_openconfig_aaa_aaa_authentication_fallback
      |unfold Handlers.patch_openconfig_aaa_aaa_authentication_debug
      |unfold Handlers.patch_openconfig_aaa_aaa_authentication_trace];
      rewrite Hf, M; reflexivity. }
  rewrite E. repeat split. exact M.
Qed.

Lemma set_flag_invalid_witness :
  "garbage" <> "enable" /\ "garbage" <> "disable" /\ "garbage" <> "default"
  /\ set_flag Trace "garbage" [] (serving JNull) = ([Stdout "Invalid option: garbage"], Ok 1).
Proof.
  assert (He : "garbage" <> "enable") by discriminate.
  assert (Hd : "garbage" <> "disable") by discriminate.
  assert (Hf : "garbage" <> "default") by discriminate.
  exact (conj He (conj Hd (conj Hf
           (proj1 (set_flag_invalid Trace "garbage" [] (serving JNull) He Hd Hf))))).
Defined.

(** ** The method lists *)

(** C8. The list built from two candidates holds each candidate that is
    non-empty after trimming whitespace, the first one (when kept) before the
    second; the two examples of the specification. *)
Theorem methods_to_list_spec (method1 method2 : option string) :
  methods_to_list method1 method2 = (kept method1 ++ kept method2)%list
  /\ (forall s, In s (methods_to_list method1 method2)
                <-> (method1 = Some s \/ method2 = Some s) /\ strip s <> "")
  /\ methods_to_list (Some "tacacs+") (Some "local") = ["tacacs+"; "local"]
  /\ methods_to_list (Some "") None = [].
Proof.
  split; [apply methods_to_list_kept|].
  split; [|split; reflexivity].
  intros s. rewrite methods_to_list_kept, in_app_iff.
  assert (K : forall m, In s (kept m) <-> m = Some s /\ strip s <> "").
  { intros [t|]; simpl.
    - destruct (string_dec (strip t) "") as [E|E]; simpl; split.
      + intros [].
      + intros [[= ->] N]. contradiction.
      + intros [-> | []]. split; [reflexivity | exact E].
      + intros [[= ->] _]. left; reflexivity.
    - split; [intros [] | intros [[=] _]]. }
  rewrite !K. tauto.
Qed.

(** C10. Trimming serves the emptiness test only: a candidate that is not
    blank enters the list as it was given, whitespace included, and so it
    stands in the body of the PATCH; the trimmed form is not what the list
    holds when it differs from the candidate. *)
Theorem methods_kept_untrimmed (s : string) (method2 : option string)
    (args : list string) (api : ApiClient) :
  strip s <> "" ->
  methods_to_list (Some s) method2 = s :: kept method2
  /\ (forall method1, methods_to_list method1 (Some s) = (kept method1 ++ [s])%list)
  /\ (strip s <> s -> ~ In (strip s) (methods_to_list (Some s) None))
  /\ requests (fst (Handlers.patch_openconfig_aaa_aaa_authentication_login
                      (Some s) method2 args api))
     = [PATCH (aaa_path (Some "authentication/config"))
              (JObj [("openconfig-system:config",
                      JObj [("authentication-method",
                             JArr (JStr s :: map JStr (kept method2)))])])].
Proof.
  intros N.
  assert (E : methods_to_list (Some s) method2 = s :: kept method2)
    by (rewrite methods_to_list_kept, (kept_nonblank _ N); reflexivity).
  split; [exact E|].
  split; [intros m1; rewrite methods_to_list_kept, (kept_nonblank _ N); reflexivity|].
  split.
  - intros D. rewrite methods_to_list_kept, (kept_nonblank _ N). simpl.
    intros [H | []]. apply D. symmetry. exact H.
  - pose proof (set_login_patches AuthenticationLogin _ _ args api _ _ eq_refl E) as P.
    change (set_login AuthenticationLogin)
      with Handlers.patch_openconfig_aaa_aaa_authentication_login in P.
    rewrite P. apply requests_exchange.
Qed.

Lemma methods_kept_untrimmed_witness :
  strip " local " <> ""
  /\ strip " local " = "local"
  /\ methods_to_list (Some " local ") None = [" local "].
Proof.
  assert (N : strip " local " <> "") by discriminate.
  exact (conj N (conj eq_refl
           (proj1 (methods_kept_untrimmed " local " None [] (serving JNull) N)))).
Defined.

(** C4. The accounting-login Set handler called with "disable" as its first
    argument does what the accounting-login Delete handler does, whatever the
    second argument: one DELETE at [accounting/config/accounting-method] and
    no PATCH. The method list, had it been built, would have held "disable":
    the delegation comes before the list. *)
Theorem accounting_disable_deletes (method2 : option string) (args : list string)
    (api : ApiClient) :
  let r := DELETE (Path_join (mkPath "/restconf/data/openconfig-system:system/aaa")
                     "accounting/config/accounting-method") in
  Handlers.patch_openconfig_aaa_aaa_accounting_login (Some "disable") method2 args api
  = Handlers.delete_openconfig_aaa_aaa_accounting_login [] api
  /\ Handlers.delete_openconfig_aaa_aaa_accounting_login [] api
     = (if ok (api r) then ([Call r], Ok 0)
        else ([Call r; Stdout (error_message (api r))], Ok 1))
  /\ requests (fst (Handlers.patch_openconfig_aaa_aaa_accounting_login
                      (Some "disable") method2 args api)) = [r]
  /\ methods_to_list (Some "disable") method2 = "disable" :: kept method2.
Proof.
  intros r.
  assert (E : Handlers.patch_openconfig_aaa_aaa_accounting_login (Some "disable") method2 args api
              = Handlers.delete_openconfig_aaa_aaa_accounting_login [] api) by reflexivity.
  assert (D : Handlers.delete_openconfig_aaa_aaa_accounting_login [] api = exchange r api)
    by apply send_check_ok.
  rewrite E, D.
  split; [reflexivity|]. split; [reflexivity|]. split; [apply requests_exchange|].
  rewrite methods_to_list_kept. reflexivity.
Qed.

(** C6. For each of the three families, when the method list built from the
    two arguments is empty, which is when both are absent, empty or made of
    whitespace only, the Set handler prints
    "At least one <family> method is required" and returns 1 without a
    request. Hence the method list of a PATCH that a Set handler sends is
    never empty. *)
Theorem set_login_rejects_empty (F : family) (method1 method2 : option string)
    (args : list string) (api : ApiClient) :
  (methods_to_list method1 method2 = [] <-> blank method1 /\ blank method2)
  /\ (forall s, blank (Some s) <-> all_space s = true)
  /\ (methods_to_list method1 method2 = [] ->
      set_login F method1 method2 args api
      = ([Stdout ("At least one " ++ family_name F ++ " method is required")], Ok 1)
      /\ requests (fst (set_login F method1 method2 args api)) = [])
  /\ (forall p body,
        In (PATCH p body) (requests (fst (set_login F method1 method2 args api))) ->
        exists m ms, methods_to_list method1 method2 = m :: ms
                     /\ body = JObj [("openconfig-system:config",
                                      JObj [(family_name F ++ "-method",
                                             JArr (JStr m :: map JStr ms))])]).
Proof.
  split; [apply methods_to_list_empty|].
  split; [intros s; apply strip_empty_iff|].
  split.
  - intros E.
    assert (R : set_login F method1 method2 args api
                = ([Stdout ("At least one " ++ family_name F ++ " method is required")], Ok 1)).
    { destruct F; simpl;
        [unfold Handlers.patch_openconfig_aaa_aaa_authentication_login
        |unfold Handlers.patch_openconfig_aaa_aaa_authorization_login
        |unfold Handlers.patch_openconfig_aaa_aaa_accounting_login];
        rewrite ?E; try reflexivity.
      destruct (arg_eqb method1 "disable") eqn:A; [|reflexivity].
      destruct method1 as [m|]; [|discriminate A].
      apply String.eqb_eq in A. subst m.
      rewrite methods_to_list_kept in E. discriminate E. }
    rewrite R. split; reflexivity.
  - intros p body H.
    destruct (methods_to_list method1 method2) as [|m ms] eqn:E.
    + exfalso. revert H.
      destruct F; simpl;
        [unfold Handlers.patch_openconfig_aaa_aaa_authentication_login
        |unfold Handlers.patch_openconfig_aaa_aaa_authorization_login
        |unfold Handlers.patch_openconfig_aaa_aaa_accounting_login];
        rewrite ?E; try (intros []).
      destruct (arg_eqb method1 "disable").
      * rewrite (delete_login_exchange AccountingLogin), requests_exchange.
        intros [H | []]. discriminate H.
      * intros [].
    + exists m, ms. split; [reflexivity|]. revert H.
      destruct F;
        try (match goal with
             | |- context [set_login ?G _ _ _ _] =>
                 rewrite (set_login_patches G _ _ args api _ _ eq_refl E), requests_exchange
             end;
             intros [[=] | []]; subst; reflexivity).
      destruct (arg_eqb method1 "disable") eqn:A.
      * change (set_login AccountingLogin)
          with Handlers.patch_openconfig_aaa_aaa_accounting_login.
        unfold Handlers.patch_openconfig_aaa_aaa_accounting_login. rewrite A.
        change Handlers.delete_openconfig_aaa_aaa_accounting_login
          with (delete_login AccountingLogin).
        rewrite delete_login_exchange, requests_exchange.
        intros [H | []]. discriminate H.
      * rewrite (set_login_patches AccountingLogin _ _ args api _ _ A E), requests_exchange.
        intros [[=] | []]; subst; reflexivity.
Qed.

Lemma set_login_rejects_empty_witness :
  methods_to_list (Some "") None = []
  /\ Handlers.patch_openconfig_aaa_aaa_authentication_login (Some "") None [] (serving JNull)
     = ([Stdout "At least one authentication method is required"], Ok 1).
Proof.
  exact (conj eq_refl
           (proj1 (proj1 (proj2 (proj2
              (set_login_rejects_empty AuthenticationLogin (Some "") None [] (serving JNull))))
              eq_refl))).
Defined.

(** C9. The authentication-login and authorization-login Set handlers know
    no sentinel: whatever the first argument is, "default" and "disable"
    included, as long as it is not blank they send one PATCH whose method
    list starts with that argument as given. Only the accounting-login Set
    handler looks for a sentinel, "disable", and for any other first argument
    it does the same. *)
Theorem login_without_sentinel (F : family) (s : string) (method2 : option string)
    (args : list string) (api : ApiClient) :
  strip s <> "" ->
  (F = AccountingLogin -> s <> "disable") ->
  let r := PATCH (aaa_path (Some (family_name F ++ "/config")))
                 (JObj [("openconfig-system:config",
                         JObj [(family_name F ++ "-method",
                                JArr (JStr s :: map JStr (kept method2)))])]) in
  set_login F (Some s) method2 args api
  = (if ok (api r) then ([Call r], Ok 0)
     else ([Call r; Stdout (error_message (api r))], Ok 1))
  /\ requests (fst (set_login F (Some s) method2 args api)) = [r]
  /\ requests (fst (set_login AccountingLogin (Some "disable") method2 args api))
     = [DELETE (aaa_path (Some "accounting/config/accounting-method"))].
Proof.
  intros N A r.
  assert (E : methods_to_list (Some s) method2 = s :: kept method2)
    by (rewrite methods_to_list_kept, (kept_nonblank _ N); reflexivity).
  assert (G : match F with AccountingLogin => arg_eqb (Some s) "disable" | _ => false end = false).
  { destruct F; try reflexivity. apply String.eqb_neq. apply A. reflexivity. }
  assert (R : set_login F (Some s) method2 args api = exchange r api).
  { rewrite (set_login_patches F _ _ args api _ _ G E). destruct F; reflexivity. }
  rewrite R. split; [reflexivity|]. split; [apply requests_exchange|].
  apply (accounting_disable_requests method2 args api).
Qed.

Lemma login_without_sentinel_witness :
  strip "default" <> ""
  /\ requests (fst (Handlers.patch_openconfig_aaa_aaa_authentication_login
                      (Some "default") None [] (serving JNull)))
     = [PATCH (under_aaa "authentication/config")
              (config_body "authentication-method" (JArr [JStr "default"]))]
  /\ requests (fst (Handlers.patch_openconfig_aaa_aaa_authorization_login
                      (Some "disable") (Some "local") [] (serving JNull)))
     = [PATCH (under_aaa "authorization/config")
              (config_body "authorization-method" (JArr [JStr "disable"; JStr "local"]))].
Proof.
  assert (N : strip "default" <> "") by discriminate.
  assert (N' : strip "disable" <> "") by discriminate.
  assert (A : AuthenticationLogin = AccountingLogin -> "default" <> "disable") by discriminate.
  assert (A' : AuthorizationLogin = AccountingLogin -> "disable" <> "disable") by discriminate.
  exact (conj N (conj
    (proj1 (proj2 (login_without_sentinel AuthenticationLogin "default" None []
                     (serving JNull) N A)))
    (proj1 (proj2 (login_without_sentinel AuthorizationLogin "disable" (Some "local") []
                     (serving JNull) N' A'))))).
Defined.

(** ** The Get-All handler *)

(** C2. When the GET succeeds and the store's authentication config holds
    [authentication-method = ["tacacs+", "local"]] and the failthrough flag,
    the Display Record handed to the renderer has "tacacs+,local" as its
    authentication login and the string form of the flag, "True" or "False",
    as its failthrough. In general a login entry is the comma-joined method
    list when the list is present and not empty and its default otherwise, and
    a flag entry is the string form of the flag when its key is present,
    whatever the value, and "False (default)" otherwise. The content is well
    formed, as the store serves it. *)
Theorem get_all_merges (template : string) (args : list string) (api : ApiClient) :
  let resp := api (GET AAA_PATH true) in
  let config := store_config (content resp) AuthenticationLogin in
  ok resp = true ->
  well_formed (content resp) = true ->
  exists d : AaaData,
    Handlers.get_openconfig_aaa_aaa template args api
    = ([Call (GET AAA_PATH true); Render template d], Ok 0)
    /\ (lookup "authentication-method" config = Some (JArr [JStr "tacacs+"; JStr "local"]) ->
        Authentication.login (authentication d) = "tacacs+,local")
    /\ (forall b : bool,
          lookup "openconfig-system-ext:failthrough" config = Some (JBool b) ->
          Authentication.failthrough (authentication d) = if b then "True" else "False")
    /\ (forall F : family,
          login_of F d
          = match lookup (family_name F ++ "-method") (store_config (content resp) F) with
            | Some (JArr (m :: ms)) => Py.join "," (strings (m :: ms))
            | _ => default_login F
            end)
    /\ (forall X : flag,
          flag_of X d
          = match lookup ("openconfig-system-ext:" ++ flag_name X) config with
            | Some v => PyStr.str v
            | None => "False (default)"
            end).
Proof.
  intros resp config H W.
  exists (merged (content resp)).
  split; [apply (get_renders template args api H W)|].
  assert (L : forall F : family,
            login_of F (merged (content resp))
            = match lookup (family_name F ++ "-method") (store_config (content resp) F) with
              | Some (JArr (m :: ms)) => Py.join "," (strings (m :: ms))
              | _ => default_login F
              end).
  { intros F. destruct F; simpl; unfold shown_methods, methods_value, method_key; simpl;
      match goal with
      | |- context [lookup ?k ?c] => destruct (lookup k c) as [[| | | | [|? ?] |]|]
      end; reflexivity. }
  assert (G : forall X : flag,
            flag_of X (merged (content resp))
            = match lookup ("openconfig-system-ext:" ++ flag_name X) config with
              | Some v => PyStr.str v
              | None => "False (default)"
              end).
  { intros X. destruct X; simpl; unfold shown_flag, flag_value, flag_key; simpl; fold config;
      match goal with
      | |- context [lookup ?k ?c] => destruct (lookup k c)
      end; reflexivity. }
  split; [|split; [|split; assumption]].
  - intros M. change (login_of AuthenticationLogin (merged (content resp)) = "tacacs+,local").
    rewrite L. cbn [family_name append]. fold config. rewrite M. reflexivity.
  - intros b B. change (flag_of Failthrough (merged (content resp)) = if b then "True" else "False").
    rewrite G. cbn [flag_name append]. rewrite B. destruct b; reflexivity.
Qed.

Lemma get_all_merges_witness :
  well_formed sample_content = true
  /\ exists d : AaaData,
       Handlers.get_openconfig_aaa_aaa "show_aaa.j2" [] (serving sample_content)
       = ([Call (GET AAA_PATH true); Render "show_aaa.j2" d], Ok 0)
       /\ Authentication.login (authentication d) = "tacacs+,local"
       /\ Authentication.failthrough (authentication d) = "True"
       /\ Authentication.fallback (authentication d) = "False".
Proof.
  split; [reflexivity|].
  destruct (get_all_merges "show_aaa.j2" [] (serving sample_content) eq_refl eq_refl)
    as (d & R & M & T & _ & G).
  exists d. split; [exact R|]. split; [exact (M eq_refl)|].
  split; [exact (T true eq_refl) | exact (G Fallback)].
Defined.

(** C7. When the GET fails, the Get-All handler prints the transport's error
    message, returns 1 and renders nothing. When the GET succeeds, with well
    formed content or with none (an ignored not-found), it renders once, the
    merged Display Record under the given template, and returns 0; it prints
    nothing and returns no other status on a GET that succeeded. *)
Theorem get_all_outcome (template : string) (args : list string) (api : ApiClient) :
  let resp := api (GET AAA_PATH true) in
  let run := Handlers.get_openconfig_aaa_aaa template args api in
  (ok resp = false ->
   run = ([Call (GET AAA_PATH true); Stdout (error_message resp)], Ok 1)
   /\ rendered (fst run) = [])
  /\ (ok resp = true -> well_formed (content resp) = true ->
      run = ([Call (GET AAA_PATH true); Render template (merged (content resp))], Ok 0)
      /\ rendered (fst run) = [(template, merged (content resp))])
  /\ (ok resp = true -> PyJson.truthy (content resp) = false ->
      run = ([Call (GET AAA_PATH true); Render template Handlers.default_aaa_data], Ok 0))
  /\ (ok resp = true ->
      (exists d, run = ([Call (GET AAA_PATH true); Render template d], Ok 0))
      \/ (exists e, run = ([Call (GET AAA_PATH true)], Raise e))).
Proof.
  intros resp run. repeat apply conj.
  - intros H. unfold run. rewrite (get_fails template args api H). split; reflexivity.
  - intros H W. unfold run. rewrite (get_renders template args api H W). split; reflexivity.
  - intros H T. unfold run. rewrite (get_parses template args api H).
    unfold parse_content. fold resp. rewrite T. reflexivity.
  - intros H. unfold run. rewrite (get_parses template args api H).
    destruct (parse_content _ _) as [d|e]; [left; exists d | right; exists e]; reflexivity.
Qed.

Lemma get_all_outcome_witness :
  Handlers.get_openconfig_aaa_aaa "show_aaa.j2" [] (failing "Connection failed")
  = ([Call (GET AAA_PATH true); Stdout "Connection failed"], Ok 1)
  /\ Handlers.get_openconfig_aaa_aaa "show_aaa.j2" [] (serving JNull)
     = ([Call (GET AAA_PATH true); Render "show_aaa.j2" (merged JNull)], Ok 0).
Proof.
  exact (conj
    (proj1 (proj1 (get_all_outcome "show_aaa.j2" [] (failing "Connection failed")) eq_refl))
    (proj1 (proj1 (proj2 (get_all_outcome "show_aaa.j2" [] (serving JNull)))
              eq_refl eq_refl))).
Defined.

(** ** Every handler, case by case *)

Lemma set_flag_cases X o args api :
  set_flag X o args api
  = if String.eqb o "default" then
      exchange (DELETE (under_aaa ("authentication/config/" ++ flag_key X))) api
    else
      match option_to_bool o with
      | Some b =>
          exchange (PATCH (under_aaa "authentication/config")
                          (config_body (flag_key X) (JBool b))) api
      | None => ([Stdout ("Invalid option: " ++ o)], Ok 1)
      end.
Proof.
  destruct X; simpl;
    [unfold Handlers.patch_openconfig_aaa_aaa_authentication_failthrough
    |unfold Handlers.patch_openconfig_aaa_aaa_authentication_fallback
    |unfold Handlers.patch_openconfig_aaa_aaa_authentication_debug
    |unfold Handlers.patch_openconfig_aaa_aaa_authentication_trace];
    (destruct (String.eqb o "default"); [apply send_check_ok|]);
    (destruct (option_to_bool o); [apply send_check_ok | reflexivity]).
Qed.

Lemma delete_flag_deletes X args api :
  delete_flag X args api
  = exchange (DELETE (under_aaa ("authentication/config/" ++ flag_key X))) api.
Proof. destruct X; apply send_check_ok. Qed.

Lemma set_login_cases F m1 m2 args api :
  set_login F m1 m2 args api
  = if match F with AccountingLogin => arg_eqb m1 "disable" | _ => false end then
      exchange (DELETE (under_aaa "accounting/config/accounting-method")) api
    else
      match methods_to_list m1 m2 with
      | [] => ([Stdout ("At least one " ++ family_name F ++ " method is required")], Ok 1)
      | l => exchange (PATCH (under_aaa (family_name F ++ "/config"))
                             (config_body (method_key F) (JArr (map JStr l)))) api
      end.
Proof.
  destruct F; simpl;
    [unfold Handlers.patch_openconfig_aaa_aaa_authentication_login
    |unfold Handlers.patch_openconfig_aaa_aaa_authorization_login
    |unfold Handlers.patch_openconfig_aaa_aaa_accounting_login;
     destruct (arg_eqb m1 "disable"); [apply send_check_ok|]];
    (destruct (methods_to_list m1 m2); [reflexivity | apply send_check_ok]).
Qed.

Lemma set_flag_behaviour X o args api : behaviour api (set_flag X o args api).
Proof.
  rewrite set_flag_cases.
  destruct (String.eqb o "default"); [|destruct (option_to_bool o)].
  - apply Exchanged; [|discriminate]. exists "authentication", (flag_key X). reflexivity.
  - apply Exchanged; [|discriminate].
    exists "authentication", (flag_key X), (JBool b). split; reflexivity.
  - apply Rejected.
Qed.

Lemma delete_flag_behaviour X args api : behaviour api (delete_flag X args api).
Proof.
  rewrite delete_flag_deletes.
  apply Exchanged; [|discriminate]. exists "authentication", (flag_key X). reflexivity.
Qed.

Lemma set_login_behaviour F m1 m2 args api : behaviour api (set_login F m1 m2 args api).
Proof.
  rewrite set_login_cases.
  destruct (match F with AccountingLogin => arg_eqb m1 "disable" | _ => false end).
  - apply Exchanged; [|discriminate]. exists "accounting", "accounting-method". reflexivity.
  - destruct (methods_to_list m1 m2) as [|m ms]; [apply Rejected|].
    apply Exchanged; [|discriminate].
    exists (family_name F), (method_key F), (JArr (map JStr (m :: ms))). split; reflexivity.
Qed.

Lemma delete_login_behaviour F args api : behaviour api (delete_login F args api).
Proof.
  rewrite delete_login_exchange.
  apply Exchanged; [|discriminate]. exists (family_name F), (method_key F). reflexivity.
Qed.

Lemma get_behaviour template args api :
  behaviour api (Handlers.get_openconfig_aaa_aaa template args api).
Proof.
  destruct (ok (api (GET AAA_PATH true))) eqn:H.
  - rewrite (get_parses _ _ _ H).
    destruct (parse_content _ _); [apply Shown | apply Unreadable]; exact H.
  - rewrite (get_fails _ _ _ H). apply Unanswered. exact H.
Qed.

Lemma static_method_behaviour func h args api :
  static_method func static_methods = Some h -> behaviour api (h args api).
Proof.
  intros H. by_static_method H; unfold bind_required, bind_methods;
    try (destruct args as [|a [|b rest]]); try apply Unbound;
    first [ apply (set_flag_behaviour Failthrough) | apply (set_flag_behaviour Fallback)
          | apply (set_flag_behaviour Debug) | apply (set_flag_behaviour Trace)
          | apply (delete_flag_behaviour Failthrough) | apply (delete_flag_behaviour Fallback)
          | apply (delete_flag_behaviour Debug) | apply (delete_flag_behaviour Trace)
          | apply (set_login_behaviour AuthenticationLogin)
          | apply (set_login_behaviour AuthorizationLogin)
          | apply (set_login_behaviour AccountingLogin)
          | apply (delete_login_behaviour AuthenticationLogin)
          | apply (delete_login_behaviour AuthorizationLogin)
          | apply (delete_login_behaviour AccountingLogin)
          | apply get_behaviour ].
Qed.

Lemma run_behaviour func args m api :
  run func args = Some m -> behaviour api (m api).
Proof.
  unfold run. destruct (static_method func static_methods) as [h|] eqn:H; [|discriminate].
  intros [= <-]. apply (static_method_behaviour func h args api H).
Qed.

Lemma exchange_status r api :
  snd (exchange r api) = Ok 0 \/ snd (exchange r api) = Ok 1.
Proof. unfold exchange. destruct (ok (api r)); [left | right]; reflexivity. Qed.

Lemma set_flag_status X o args api :
  snd (set_flag X o args api) = Ok 0 \/ snd (set_flag X o args api) = Ok 1.
Proof.
  rewrite set_flag_cases.
  destruct (String.eqb o "default"); [apply exchange_status|].
  destruct (option_to_bool o); [apply exchange_status | right; reflexivity].
Qed.

Lemma set_login_status F m1 m2 args api :
  snd (set_login F m1 m2 args api) = Ok 0 \/ snd (set_login F m1 m2 args api) = Ok 1.
Proof.
  rewrite set_login_cases.
  destruct (match F with AccountingLogin => arg_eqb m1 "disable" | _ => false end);
    [apply exchange_status|].
  destruct (methods_to_list m1 m2); [right; reflexivity | apply exchange_status].
Qed.

Lemma delete_flag_status X args api :
  snd (delete_flag X args api) = Ok 0 \/ snd (delete_flag X args api) = Ok 1.
Proof. rewrite delete_flag_deletes. apply exchange_status. Qed.

Lemma delete_login_status F args api :
  snd (delete_login F args api) = Ok 0 \/ snd (delete_login F args api) = Ok 1.
Proof. rewrite delete_login_exchange. apply exchange_status. Qed.

(** ** Invariants of the handlers *)

(** X1. Whatever handler [run] reaches and whatever its arguments, the call
    makes at most one request, and that request stays in the AAA tree: the
    GET of the root with 404 ignored, a PATCH of one field to the [config]
    node of a branch, or a DELETE of one attribute of such a node. A Set that
    turns into a Delete makes the DELETE only. *)
Theorem handlers_one_request (func : string) (args : list string) (m : io Z)
    (api : ApiClient) :
  run func args = Some m ->
  requests (fst (m api)) = []
  \/ exists r, requests (fst (m api)) = [r] /\ within_aaa r.
Proof.
  intros H. pose proof (run_behaviour func args m api H) as B.
  remember (m api) as out eqn:E. clear E H.
  destruct B as [r W _ | line | | template d _ | e _ | _].
  - right. exists r. split; [apply requests_exchange | exact W].
  - left. reflexivity.
  - left. reflexivity.
  - right. exists (GET AAA_PATH true). repeat split.
  - right. exists (GET AAA_PATH true). repeat split.
  - right. exists (GET AAA_PATH true). repeat split.
Qed.

Lemma handlers_one_request_witness :
  run "patch_openconfig_aaa_aaa_accounting_login" ["disable"]
  = Some (Handlers.patch_openconfig_aaa_aaa_accounting_login (Some "disable") None [])
  /\ (requests (fst (Handlers.patch_openconfig_aaa_aaa_accounting_login
                       (Some "disable") None [] (serving JNull))) = []
      \/ exists r,
           requests (fst (Handlers.patch_openconfig_aaa_aaa_accounting_login
                            (Some "disable") None [] (serving JNull))) = [r]
           /\ within_aaa r).
Proof.
  exact (conj eq_refl
           (handlers_one_request "patch_openconfig_aaa_aaa_accounting_login" ["disable"]
              _ (serving JNull) eq_refl)).
Defined.

(** X2. A handler returns 0 only after exactly one request that the
    transport answered with success, and then it has printed nothing. *)
Theorem handlers_success_status (func : string) (args : list string) (m : io Z)
    (api : ApiClient) :
  run func args = Some m ->
  snd (m api) = Ok 0 ->
  exists r, requests (fst (m api)) = [r] /\ ok (api r) = true /\ printed (fst (m api)) = [].
Proof.
  intros H. pose proof (run_behaviour func args m api H) as B.
  remember (m api) as out eqn:E. clear E H.
  destruct B as [r _ _ | line | | template d G | e _ | _]; try discriminate.
  - unfold exchange. destruct (ok (api r)) eqn:O; [|discriminate].
    intros _. exists r. repeat split. exact O.
  - intros _. exists (GET AAA_PATH true). repeat split. exact G.
Qed.

Lemma handlers_success_status_witness :
  snd (Handlers.delete_openconfig_aaa_aaa_authentication_trace [] (serving JNull)) = Ok 0
  /\ exists r,
       requests (fst (Handlers.delete_openconfig_aaa_aaa_authentication_trace []
                        (serving JNull))) = [r]
       /\ ok (serving JNull r) = true
       /\ printed (fst (Handlers.delete_openconfig_aaa_aaa_authentication_trace []
                          (serving JNull))) = [].
Proof.
  exact (conj eq_refl
           (handlers_success_status "delete_openconfig_aaa_aaa_authentication_trace" []
              _ (serving JNull) eq_refl eq_refl)).
Defined.

(** X3. A handler that returns 1 has printed exactly one line and rendered
    nothing; if it made a request, the transport answered it with a failure
    and the line is the transport's error message. *)
Theorem handlers_failure_status (func : string) (args : list string) (m : io Z)
    (api : ApiClient) :
  run func args = Some m ->
  snd (m api) = Ok 1 ->
  exists line,
    printed (fst (m api)) = [line]
    /\ rendered (fst (m api)) = []
    /\ (requests (fst (m api)) = []
        \/ exists r, requests (fst (m api)) = [r]
                     /\ ok (api r) = false /\ line = error_message (api r)).
Proof.
  intros H. pose proof (run_behaviour func args m api H) as B.
  remember (m api) as out eqn:E. clear E H.
  destruct B as [r _ _ | line | | template d _ | e _ | G]; try discriminate.
  - unfold exchange. destruct (ok (api r)) eqn:O; [discriminate|].
    intros _. exists (error_message (api r)). repeat split.
    right. exists r. repeat split. exact O.
  - intros _. exists line. repeat split. left. reflexivity.
  - intros _. exists (error_message (api (GET AAA_PATH true))). repeat split.
    right. exists (GET AAA_PATH true). repeat split. exact G.
Qed.

Lemma handlers_failure_status_witness :
  snd (Handlers.get_openconfig_aaa_aaa "show_aaa.j2" [] (failing "Connection failed")) = Ok 1
  /\ exists line,
       printed (fst (Handlers.get_openconfig_aaa_aaa "show_aaa.j2" []
                       (failing "Connection failed"))) = [line].
Proof.
  split; [reflexivity|].
  destruct (handlers_failure_status "get_openconfig_aaa_aaa" ["show_aaa.j2"] _
              (failing "Connection failed") eq_refl eq_refl) as (line & P & _).
  exists line. exact P.
Defined.

(** X4. A handler that raises has printed and rendered nothing and has
    changed nothing in the store: either it made no request at all (a
    TypeError), or its only request is the GET, which succeeded. *)
Theorem handlers_raise (func : string) (args : list string) (m : io Z)
    (api : ApiClient) (e : exn) :
  run func args = Some m ->
  snd (m api) = Raise e ->
  (fst (m api) = [] /\ e = TypeError)
  \/ (fst (m api) = [Call (GET AAA_PATH true)] /\ ok (api (GET AAA_PATH true)) = true).
Proof.
  intros H. pose proof (run_behaviour func args m api H) as B.
  remember (m api) as out eqn:E. clear E H.
  destruct B as [r _ _ | line | | template d _ | e' G | _]; try discriminate.
  - unfold exchange. destruct (ok (api r)); discriminate.
  - intros [= <-]. left. split; reflexivity.
  - intros _. right. split; [reflexivity | exact G].
Qed.

Lemma handlers_raise_witness :
  snd (bind_required Handlers.patch_openconfig_aaa_aaa_authentication_debug []
         (serving JNull)) = Raise TypeError
  /\ fst (bind_required Handlers.patch_openconfig_aaa_aaa_authentication_debug []
            (serving JNull)) = [].
Proof.
  split; [reflexivity|].
  destruct (handlers_raise "patch_openconfig_aaa_aaa_authentication_debug" [] _
              (serving JNull) TypeError eq_refl eq_refl) as [[T _] | [T _]];
    [exact T | discriminate T].
Defined.

(** X5. The Set and Delete handlers never raise once they have their first
    argument: called through [run] with at least one argument, each of them
    returns 0 or 1. *)
Theorem set_delete_return_status (func : string) (args : list string) (m : io Z)
    (api : ApiClient) :
  run func args = Some m ->
  func <> "get_openconfig_aaa_aaa" ->
  args <> [] ->
  snd (m api) = Ok 0 \/ snd (m api) = Ok 1.
Proof.
  intros R Ng Na. unfold run in R.
  destruct (static_method func static_methods) as [h|] eqn:H; [|discriminate].
  injection R as <-.
  by_static_method H; unfold bind_required, bind_methods;
    try (destruct args as [|a [|b rest]]; [now elim Na | |]);
    first [ apply (set_flag_status Failthrough) | apply (set_flag_status Fallback)
          | apply (set_flag_status Debug) | apply (set_flag_status Trace)
          | apply (delete_flag_status Failthrough) | apply (delete_flag_status Fallback)
          | apply (delete_flag_status Debug) | apply (delete_flag_status Trace)
          | apply (set_login_status AuthenticationLogin)
          | apply (set_login_status AuthorizationLogin)
          | apply (set_login_status AccountingLogin)
          | apply (delete_login_status AuthenticationLogin)
          | apply (delete_login_status AuthorizationLogin)
          | apply (delete_login_status AccountingLogin)
          | now elim Ng ].
Qed.

Lemma set_delete_return_status_witness :
  "patch_openconfig_aaa_aaa_authorization_login" <> "get_openconfig_aaa_aaa"
  /\ ["   "] <> []
  /\ (snd (Handlers.patch_openconfig_aaa_aaa_authorization_login (Some "   ") None []
             (failing "down")) = Ok 0
      \/ snd (Handlers.patch_openconfig_aaa_aaa_authorization_login (Some "   ") None []
                (failing "down")) = Ok 1).
Proof.
  assert (Ng : "patch_openconfig_aaa_aaa_authorization_login" <> "get_openconfig_aaa_aaa")
    by discriminate.
  assert (Na : ["   "] <> []) by discriminate.
  exact (conj Ng (conj Na
           (set_delete_return_status "patch_openconfig_aaa_aaa_authorization_login" ["   "]
              _ (failing "down") eq_refl Ng Na))).
Defined.

(** X6. Called through [run] without any argument, a Delete handler does its
    DELETE all the same, and every other handler raises a TypeError before
    anything is requested or printed. *)
Theorem missing_argument (func : string) (m : io Z) (api : ApiClient) :
  run func [] = Some m ->
  if String.prefix "delete" func then exists p, m api = exchange (DELETE p) api
  else m api = ([], Raise TypeError).
Proof.
  intros R. unfold run in R.
  destruct (static_method func static_methods) as [h|] eqn:H; [|discriminate].
  injection R as <-.
  by_static_method H; cbn [String.prefix Ascii.eqb Bool.eqb];
    try reflexivity; eexists;
    first [ apply (delete_flag_deletes Failthrough) | apply (delete_flag_deletes Fallback)
          | apply (delete_flag_deletes Debug) | apply (delete_flag_deletes Trace)
          | apply (delete_login_exchange AuthenticationLogin)
          | apply (delete_login_exchange AuthorizationLogin)
          | apply (delete_login_exchange AccountingLogin) ].
Qed.

Lemma missing_argument_witness :
  run "get_openconfig_aaa_aaa" [] = Some (bind_required Handlers.get_openconfig_aaa_aaa [])
  /\ bind_required Handlers.get_openconfig_aaa_aaa [] (serving sample_content)
     = ([], Raise TypeError).
Proof.
  exact (conj eq_refl
           (missing_argument "get_openconfig_aaa_aaa" _ (serving sample_content) eq_refl)).
Defined.

(** X7. No handler reads past its second argument: a call through [run] does
    the same with the arguments cut after the second. *)
Theorem extra_arguments_ignored (func : string) (args : list string) (m : io Z)
    (api : ApiClient) :
  run func args = Some m ->
  exists m', run func (firstn 2 args) = Some m' /\ m' api = m api.
Proof.
  intros R. unfold run in *.
  destruct (static_method func static_methods) as [h|] eqn:H; [|discriminate].
  injection R as <-. eexists. split; [reflexivity|].
  by_static_method H; destruct args as [|a [|b rest]]; reflexivity.
Qed.

Lemma extra_arguments_ignored_witness :
  exists m',
    run "patch_openconfig_aaa_aaa_authentication_login" (firstn 2 ["tacacs+"; "local"; "x"])
    = Some m'
    /\ m' (serving JNull)
       = Handlers.patch_openconfig_aaa_aaa_authentication_login
           (Some "tacacs+") (Some "local") ["x"] (serving JNull).
Proof.
  exact (extra_arguments_ignored "patch_openconfig_aaa_aaa_authentication_login"
           ["tacacs+"; "local"; "x"] _ (serving JNull) eq_refl).
Defined.

(** ** More on the Set and Delete handlers *)

(** X8. The Delete handler of each method-list family makes one request,
    the DELETE of [<family>/config/<family>-method], whatever arguments it is
    given, and returns 0 when the transport answers with success, otherwise
    prints the error message and returns 1. *)
Theorem delete_login_spec (F : family) (args : list string) (api : ApiClient) :
  let r := DELETE (Path_join (mkPath "/restconf/data/openconfig-system:system/aaa")
                     (family_name F ++ "/config/" ++ family_name F ++ "-method")) in
  delete_login F args api
  = (if ok (api r) then ([Call r], Ok 0)
     else ([Call r; Stdout (error_message (api r))], Ok 1))
  /\ requests (fst (delete_login F args api)) = [r].
Proof.
  intros r.
  assert (E : delete_login F args api = exchange r api)
    by (rewrite delete_login_exchange; destruct F; reflexivity).
  rewrite E. split; [reflexivity | apply requests_exchange].
Qed.

(** X9. A blank first method does not stop a Set of a method list: when the
    first argument is absent, empty or whitespace and the second is not, the
    handler PATCHes the list made of the second argument alone. *)
Theorem set_login_blank_first (F : family) (method1 : option string) (s : string)
    (args : list string) (api : ApiClient) :
  blank method1 ->
  strip s <> "" ->
  let r := PATCH (aaa_path (Some (family_name F ++ "/config")))
                 (JObj [("openconfig-system:config",
                         JObj [(family_name F ++ "-method", JArr [JStr s])])]) in
  set_login F method1 (Some s) args api
  = (if ok (api r) then ([Call r], Ok 0)
     else ([Call r; Stdout (error_message (api r))], Ok 1)).
Proof.
  intros B N r.
  assert (E : methods_to_list method1 (Some s) = [s]).
  { rewrite methods_to_list_kept, (kept_nonblank _ N).
    apply kept_blank in B. rewrite B. reflexivity. }
  assert (G : match F with AccountingLogin => arg_eqb method1 "disable" | _ => false end = false).
  { destruct F; try reflexivity.
    destruct method1 as [m|]; [|reflexivity].
    simpl. apply String.eqb_neq. intros ->. discriminate B. }
  rewrite set_login_cases, G, E. destruct F; reflexivity.
Qed.

Lemma set_login_blank_first_witness :
  blank (Some "  ") /\ strip "local" <> ""
  /\ Handlers.patch_openconfig_aaa_aaa_authentication_login (Some "  ") (Some "local") []
       (serving JNull)
     = ([Call (PATCH (under_aaa "authentication/config")
                     (config_body "authentication-method" (JArr [JStr "local"])))], Ok 0).
Proof.
  assert (B : blank (Some "  ")) by reflexivity.
  assert (N : strip "local" <> "") by discriminate.
  exact (conj B (conj N
           (set_login_blank_first AuthenticationLogin (Some "  ") "local" []
              (serving JNull) B N))).
Defined.

(** X10. The method list has at most two entries, it keeps a method given
    twice twice, and exchanging the two candidates reverses it. *)
Theorem methods_to_list_shape (method1 method2 : option string) :
  (length (methods_to_list method1 method2) <= 2)%nat
  /\ methods_to_list method2 method1 = rev (methods_to_list method1 method2)
  /\ (forall s, strip s <> "" -> methods_to_list (Some s) (Some s) = [s; s]).
Proof.
  rewrite !methods_to_list_kept.
  assert (K : forall m, kept m = [] \/ exists s, kept m = [s]).
  { intros [s|]; simpl; [|left; reflexivity].
    destruct (string_dec (strip s) ""); [left | right; exists s]; reflexivity. }
  split; [|split].
  - destruct (K method1) as [-> | [s1 ->]], (K method2) as [-> | [s2 ->]]; simpl; lia.
  - destruct (K method1) as [-> | [s1 ->]], (K method2) as [-> | [s2 ->]]; reflexivity.
  - intros s N. rewrite methods_to_list_kept, (kept_nonblank _ N). reflexivity.
Qed.

Lemma methods_to_list_shape_witness :
  strip "local" <> "" /\ methods_to_list (Some "local") (Some "local") = ["local"; "local"].
Proof.
  assert (N : strip "local" <> "") by discriminate.
  exact (conj N (proj2 (proj2 (methods_to_list_shape None None)) "local" N)).
Defined.

(** X11. The option mapper and the two option words are inverse to each
    other: an option maps to a boolean exactly when it is the word of that
    boolean, "enable" for true and "disable" for false, letter for letter. *)
Theorem option_to_bool_inverse (o : string) (b : bool) :
  option_to_bool o = Some b <-> o = if b then "enable" else "disable".
Proof.
  unfold option_to_bool. split.
  - destruct (String.eqb o "enable") eqn:E; [|destruct (String.eqb o "disable") eqn:D].
    + intros [= <-]. apply String.eqb_eq. exact E.
    + intros [= <-]. apply String.eqb_eq. exact D.
    + discriminate.
  - intros ->. destruct b; reflexivity.
Qed.

(** ** Set, then Get-All *)

Lemma all_strings l :
  forallb (fun x => match x with JStr _ => true | _ => false end) (map JStr l) = true.
Proof. induction l as [|s r IH]; [reflexivity | exact IH]. Qed.

Lemma strings_map l : strings (map JStr l) = l.
Proof. induction l as [|s r IH]; [reflexivity|]. simpl. f_equal. exact IH. Qed.

Lemma patched_exchange r api :
  patched (fst (exchange r api)) = match r with PATCH _ body => Some body | _ => None end.
Proof. unfold patched. rewrite requests_exchange. destruct r; reflexivity. Qed.

Lemma get_store_holding template args held :
  well_formed held = true ->
  Handlers.get_openconfig_aaa_aaa template args (store_holding held)
  = ([Call (GET AAA_PATH true); Render template (merged held)], Ok 0).
Proof. intros W. apply (get_renders template args (store_holding held) eq_refl W). Qed.

(** X12. The method list that a Set handler PATCHes is the one the Get-All
    handler shows: when the store then serves the PATCHed [config] items back
    under the family's branch, the login entry of that family is the
    comma-joined list of the methods given to the Set, and every other entry
    keeps its default. The Set and the Get-All use the same attribute key. *)
Theorem set_login_then_get_all (F : family) (method1 method2 : option string)
    (args : list string) (api : ApiClient) (body : json)
    (template : string) (args' : list string) :
  patched (fst (set_login F method1 method2 args api)) = Some body ->
  exists d : AaaData,
    Handlers.get_openconfig_aaa_aaa template args'
      (store_holding (served_back (family_name F) body))
    = ([Call (GET AAA_PATH true); Render template d], Ok 0)
    /\ login_of F d = Py.join "," (methods_to_list method1 method2)
    /\ (forall F', F' <> F -> login_of F' d = default_login F')
    /\ (forall X, flag_of X d = "False (default)").
Proof.
  rewrite set_login_cases.
  destruct (match F with AccountingLogin => arg_eqb method1 "disable" | _ => false end);
    [rewrite patched_exchange; discriminate|].
  destruct (methods_to_list method1 method2) as [|m ms]; [discriminate|].
  rewrite patched_exchange. intros [= <-].
  exists (merged (served_back (family_name F)
                    (config_body (method_key F) (JArr (map JStr (m :: ms)))))).
  split; [|split; [|split]].
  - apply get_store_holding.
    destruct F; cbn;
      unfold aaa_well_formed, branch_well_formed, absent_or, is_dict_of, is_method_list; cbn;
      rewrite (all_strings ms); reflexivity.
  - destruct F;
      change (Py.join "," (strings (map JStr (m :: ms))) = Py.join "," (m :: ms));
      rewrite strings_map; reflexivity.
  - intros F' D. destruct F, F'; try reflexivity; now elim D.
  - intros X. destruct F, X; reflexivity.
Qed.

Lemma set_login_then_get_all_witness :
  exists d : AaaData,
    Handlers.get_openconfig_aaa_aaa "show_aaa.j2" []
      (store_holding (served_back "accounting"
         (config_body "accounting-method" (JArr [JStr "tacacs+"; JStr "local"]))))
    = ([Call (GET AAA_PATH true); Render "show_aaa.j2" d], Ok 0)
    /\ Accounting.login (accounting d) = "tacacs+,local".
Proof.
  destruct (set_login_then_get_all AccountingLogin (Some "tacacs+") (Some "local") []
              (serving JNull) _ "show_aaa.j2" [] eq_refl) as (d & R & L & _).
  exists d. split; [exact R | exact L].
Defined.

(** X13. The flag that a Set handler PATCHes is the one the Get-All handler
    shows: when the store then serves the PATCHed [config] items back under
    the authentication branch, the entry of that flag is "True" after
    "enable" and "False" after "disable", without the default mark, and every
    other entry keeps its default. *)
Theorem set_flag_then_get_all (X : flag) (o : string) (args : list string)
    (api : ApiClient) (body : json) (template : string) (args' : list string) :
  patched (fst (set_flag X o args api)) = Some body ->
  exists (b : bool) (d : AaaData),
    o = (if b then "enable" else "disable")
    /\ Handlers.get_openconfig_aaa_aaa template args'
         (store_holding (served_back "authentication" body))
       = ([Call (GET AAA_PATH true); Render template d], Ok 0)
    /\ flag_of X d = (if b then "True" else "False")
    /\ (forall X', X' <> X -> flag_of X' d = "False (default)")
    /\ (forall F, login_of F d = default_login F).
Proof.
  rewrite set_flag_cases.
  destruct (String.eqb o "default"); [rewrite patched_exchange; discriminate|].
  destruct (option_to_bool o) as [b|] eqn:M; [|discriminate].
  rewrite patched_exchange. intros [= <-].
  exists b, (merged (served_back "authentication" (config_body (flag_key X) (JBool b)))).
  split; [|split; [|split; [|split]]].
  - unfold option_to_bool in M.
    destruct (String.eqb o "enable") eqn:E; [|destruct (String.eqb o "disable") eqn:D].
    + injection M as <-. apply String.eqb_eq. exact E.
    + injection M as <-. apply String.eqb_eq. exact D.
    + discriminate M.
  - apply get_store_holding. destruct X; reflexivity.
  - destruct X, b; reflexivity.
  - intros X' D. destruct X, X'; try reflexivity; now elim D.
  - intros F. destruct X, F; reflexivity.
Qed.

Lemma set_flag_then_get_all_witness :
  exists (b : bool) (d : AaaData),
    "disable" = (if b then "enable" else "disable")
    /\ Handlers.get_openconfig_aaa_aaa "show_aaa.j2" []
         (store_holding (served_back "authentication"
            (config_body "openconfig-system-ext:fallback" (JBool false))))
       = ([Call (GET AAA_PATH true); Render "show_aaa.j2" d], Ok 0)
    /\ Authentication.fallback (authentication d) = (if b then "True" else "False").
Proof.
  destruct (set_flag_then_get_all Fallback "disable" [] (serving JNull) _ "show_aaa.j2" []
              eq_refl) as (b & d & E & R & G & _).
  exists b, d. split; [exact E|]. split; [exact R | exact G].
Defined.

(** ** The Get-All handler on its content *)

Lemma strings_of_not_strings l :
  forallb is_string l = false -> PyJson.strings_of l = Raise TypeError.
Proof.
  induction l as [|x r IH]; simpl; [discriminate|].
  destruct x; simpl; try reflexivity.
  intros H. rewrite (IH H). reflexivity.
Qed.

(** X14. The Get-All handler makes exactly one request on every path, the
    GET of the AAA root with 404 ignored: it never PATCHes or DELETEs,
    whether the GET fails, the content is rendered, or the content makes the
    handler raise. *)
Theorem get_all_one_get (template : string) (args : list string) (api : ApiClient) :
  requests (fst (Handlers.get_openconfig_aaa_aaa template args api)) = [GET AAA_PATH true].
Proof.
  destruct (ok (api (GET AAA_PATH true))) eqn:H.
  - rewrite (get_parses _ _ _ H). destruct (parse_content _ _); reflexivity.
  - rewrite (get_fails _ _ _ H). reflexivity.
Qed.

(** X15. When the GET succeeds with content that counts as true and is not a
    dict (a non-empty list or string, a non-zero number, true), the Get-All
    handler raises an AttributeError after the GET: nothing is rendered or
    printed. *)
Theorem get_all_non_dict_content (template : string) (args : list string)
    (api : ApiClient) :
  ok (api (GET AAA_PATH true)) = true ->
  PyJson.truthy (content (api (GET AAA_PATH true))) = true ->
  (forall o, content (api (GET AAA_PATH true)) <> JObj o) ->
  Handlers.get_openconfig_aaa_aaa template args api
  = ([Call (GET AAA_PATH true)], Raise AttributeError).
Proof.
  intros H T N. rewrite (get_parses _ _ _ H). unfold parse_content. rewrite T.
  destruct (content (api (GET AAA_PATH true))) as [| b | n | s | l | o];
    try reflexivity.
  now elim (N o).
Qed.

Lemma get_all_non_dict_content_witness :
  PyJson.truthy (JArr [JStr "local"]) = true
  /\ Handlers.get_openconfig_aaa_aaa "show_aaa.j2" [] (serving (JArr [JStr "local"]))
     = ([Call (GET AAA_PATH true)], Raise AttributeError).
Proof.
  assert (N : forall o, content (serving (JArr [JStr "local"]) (GET AAA_PATH true)) <> JObj o)
    by discriminate.
  exact (conj eq_refl
           (get_all_non_dict_content "show_aaa.j2" [] (serving (JArr [JStr "local"]))
              eq_refl eq_refl N)).
Defined.

(** X16. When the GET succeeds with a dict that has no
    ["openconfig-system:aaa"] key, or has it with an empty dict, the Get-All
    handler renders the Display Record of the defaults and returns 0. *)
Theorem get_all_missing_keys (template : string) (args : list string) (api : ApiClient)
    (o : list (string * json)) :
  ok (api (GET AAA_PATH true)) = true ->
  content (api (GET AAA_PATH true)) = JObj o ->
  lookup "openconfig-system:aaa" o = None \/ lookup "openconfig-system:aaa" o = Some (JObj []) ->
  Handlers.get_openconfig_aaa_aaa template args api
  = ([Call (GET AAA_PATH true); Render template Handlers.default_aaa_data], Ok 0).
Proof.
  intros H C L.
  assert (W : well_formed (content (api (GET AAA_PATH true))) = true).
  { rewrite C. unfold well_formed, absent_or. destruct L as [-> | ->]; reflexivity. }
  rewrite (get_renders _ _ _ H W), C.
  assert (M : merged (JObj o) = Handlers.default_aaa_data).
  { unfold merged, store_config. cbn [items_at]. destruct L as [-> | ->]; reflexivity. }
  rewrite M. reflexivity.
Qed.

Lemma get_all_missing_keys_witness :
  lookup "openconfig-system:aaa" [("openconfig-system:aaa", JObj [])] = Some (JObj [])
  /\ Handlers.get_openconfig_aaa_aaa "show_aaa.j2" []
       (serving (JObj [("openconfig-system:aaa", JObj [])]))
     = ([Call (GET AAA_PATH true); Render "show_aaa.j2" Handlers.default_aaa_data], Ok 0).
Proof.
  exact (conj eq_refl
           (get_all_missing_keys "show_aaa.j2" []
              (serving (JObj [("openconfig-system:aaa", JObj [])])) _
              eq_refl eq_refl (or_intror eq_refl))).
Defined.

(** X17. When the authentication config of a successful GET holds a
    non-empty [authentication-method] list with an element that is not a
    string, the Get-All handler raises a TypeError after the GET: nothing is
    rendered or printed. *)
Theorem get_all_bad_method_list (template : string) (args : list string)
    (api : ApiClient) (o d a c : list (string * json)) (l : list json) :
  ok (api (GET AAA_PATH true)) = true ->
  content (api (GET AAA_PATH true)) = JObj o ->
  lookup "openconfig-system:aaa" o = Some (JObj d) ->
  lookup "authentication" d = Some (JObj a) ->
  lookup "config" a = Some (JObj c) ->
  lookup "authentication-method" c = Some (JArr l) ->
  forallb is_string l = false ->
  Handlers.get_openconfig_aaa_aaa template args api
  = ([Call (GET AAA_PATH true)], Raise TypeError).
Proof.
  intros H C Ld La Lc Lm S. rewrite (get_parses _ _ _ H), C.
  assert (T : PyJson.truthy (JObj o) = true)
    by (destruct o; [discriminate Ld | reflexivity]).
  assert (P : parse_content (JObj o) Handlers.default_aaa_data = Raise TypeError).
  { unfold parse_content. rewrite T. unfold PyJson.get. rewrite Ld. cbn [result_bind].
    rewrite La. cbn [result_bind]. rewrite Lc. cbn [result_bind].
    unfold overwrite_methods at 1. unfold PyJson.contains, PyJson.getitem. rewrite Lm.
    cbn [result_bind].
    assert (Tl : PyJson.truthy (JArr l) = true)
      by (destruct l; [discriminate S | reflexivity]).
    rewrite Tl. unfold PyJson.join. rewrite (strings_of_not_strings _ S). reflexivity. }
  rewrite P. reflexivity.
Qed.

Lemma get_all_bad_method_list_witness :
  forallb is_string [JStr "local"; JNum 1] = false
  /\ Handlers.get_openconfig_aaa_aaa "show_aaa.j2" []
       (serving (JObj [("openconfig-system:aaa", JObj [("authentication", JObj [("config",
          JObj [("authentication-method", JArr [JStr "local"; JNum 1])])])])]))
     = ([Call (GET AAA_PATH true)], Raise TypeError).
Proof.
  exact (conj eq_refl
           (get_all_bad_method_list "show_aaa.j2" []
              (serving (JObj [("openconfig-system:aaa", JObj [("authentication", JObj [("config",
                 JObj [("authentication-method", JArr [JStr "local"; JNum 1])])])])]))
              _ _ _ _ _ eq_refl eq_refl eq_refl eq_refl eq_refl eq_refl eq_refl)).
Defined.
